(** * Unit handling of ZEN-garden: a shallow embedding of
    [preprocess/functions/unit_handling.py] (class [UnitHandling]).

    Conventions of the embedding.
    - Python floats (magnitudes, the entries handled by the echelon form and by
      the linear solver) are idealised as exact rationals [Q]; comparisons with
      0 and 1 are exact, as they are in the source.
    - A raised exception is a value of [Error]; every function that can raise
      returns a [result].
    - The unit library (pint) is an external collaborator: its vocabulary is a
      [Registry] parameter, and only the quantity algebra the source calls
      (product, power, conversion to root units, dimensionality) is written out.
    - Exponents of units are integers. *)

From Stdlib Require Import String ZArith QArith Qround Qabs Qpower List Bool Lia.
From Stdlib Require Import Lqa.
Import ListNotations.

Local Open Scope string_scope.
Local Open Scope Z_scope.
Local Open Scope list_scope.

(** ** Exceptions and results *)

Module Py.

(** An association list from names to integer exponents: pint's
    [UnitsContainer], in insertion order. *)
Definition UnitsContainer := list (string * Z).

Inductive Error : Type :=
| DuplicateDimensionError (dimensionality : UnitsContainer) (symbol : string)
    (* the [KeyError] of [getBaseUnits] *)
| AmbiguousDependencyOrderError      (* the assertion on [posOnes] *)
| ConstructibleBaseUnitError         (* the last assertion of [getBaseUnits] *)
| MissingDimensionError (missing : list string)
| AmbiguousUnitTokenError (inputUnit : string)
| UnresolvedConversionError
| InternalConsistencyError
| ToleranceError
| UndefinedUnitError                 (* pint cannot parse the string *)
| LinAlgError                        (* [np.linalg.solve]: not square or singular *)
| ShapeError.                        (* IndexError, ValueError, AxisError, TypeError,
                                        AttributeError or a KeyError of pandas, raised by
                                        numpy, pandas or pint on an array, a frame or an
                                        object of unexpected shape *)

Inductive result (A : Type) : Type :=
| Ok (a : A)
| Raise (e : Error).

Arguments Ok {A} a.
Arguments Raise {A} e.

Definition bind {A B : Type} (r : result A) (k : A -> result B) : result B :=
  match r with
  | Ok a => k a
  | Raise e => Raise e
  end.

(** [assert c, e]. *)
Definition assert (c : bool) (e : Error) : result unit :=
  if c then Ok tt else Raise e.

End Py.

Import Py.

Declare Scope py_scope.
Delimit Scope py_scope with py.
Notation "x <- r ;; k" := (bind r (fun x => k))
  (at level 61, r at next level, right associativity) : py_scope.
Notation "r ;;; k" := (bind r (fun _ => k))
  (at level 61, right associativity) : py_scope.
Local Open Scope py_scope.

(** ** Small list and number helpers *)

Definition inb (s : string) (l : list string) : bool :=
  existsb (String.eqb s) l.

Fixpoint lookupZ (k : string) (c : UnitsContainer) : Z :=
  match c with
  | [] => 0
  | (k', v) :: c' => if String.eqb k k' then v else lookupZ k c'
  end.

Definition keys (c : UnitsContainer) : list string := map fst c.

(** Add [e] to the exponent of [k], appending the key when it is new. *)
Fixpoint accumulate (k : string) (e : Z) (c : UnitsContainer) : UnitsContainer :=
  match c with
  | [] => [(k, e)]
  | (k', v) :: c' =>
      if String.eqb k k' then (k', v + e) :: c' else (k', v) :: accumulate k e c'
  end.

Definition accumulate_all (src : UnitsContainer) (scale : Z) (acc : UnitsContainer)
  : UnitsContainer :=
  fold_left (fun a kv => accumulate (fst kv) (snd kv * scale) a) src acc.

Definition drop_zeros (c : UnitsContainer) : UnitsContainer :=
  filter (fun kv => negb (snd kv =? 0)) c.

Definition Qeqb (a b : Q) : bool := Qeq_bool a b.

Definition Qprod (l : list Q) : Q := fold_right Qmult 1%Q l.

(** ** The unit library (pint) *)

Module Pint.

(** [Quantity(magnitude, units)]; [units] is the factor list that
    [to_tuple()[1]] shows. *)
Record Quantity : Type := mkQuantity {
  magnitude : Q;
  units : UnitsContainer
}.

(** The vocabulary of a [UnitRegistry] after [load_definitions]. *)
Record Registry : Type := mkRegistry {
  (** [ureg(s)]: [None] when the string cannot be parsed. *)
  parse : string -> option Quantity;
  (** For a unit name, its factor to root units and its root-unit expression. *)
  definition : string -> Q * UnitsContainer;
  (** The dimensionality of a root unit. *)
  root_dimension : string -> UnitsContainer
}.

(** [a * b]: magnitudes multiply, factor lists are joined (exponents of equal
    names are summed when the list is converted, see [root_units]). *)
Definition qmul (a b : Quantity) : Quantity :=
  mkQuantity (magnitude a * magnitude b)%Q (units a ++ units b).

(** [a ** p] for an integer [p]. *)
Definition qpow (a : Quantity) (p : Z) : Quantity :=
  mkQuantity (magnitude a ^ p)%Q (map (fun kv => (fst kv, snd kv * p)) (units a)).

Section WithRegistry.
Variable ureg : Registry.

(** Factor of a factor list to root units. *)
Definition root_factor (c : UnitsContainer) : Q :=
  Qprod (map (fun kv => (fst (definition ureg (fst kv)) ^ snd kv)%Q) c).

(** Root units of a factor list, zero exponents dropped. *)
Definition root_units (c : UnitsContainer) : UnitsContainer :=
  drop_zeros
    (fold_left (fun acc kv => accumulate_all (snd (definition ureg (fst kv))) (snd kv) acc)
               c []).

(** [q.to_base_units()]. *)
Definition to_base_units (q : Quantity) : Quantity :=
  mkQuantity (magnitude q * root_factor (units q))%Q (root_units (units q)).

(** [q.unitless], read on a quantity already in root units. *)
Definition unitless (q : Quantity) : bool :=
  match units q with [] => true | _ => false end.

(** [ureg.get_dimensionality(q)]. *)
Definition get_dimensionality (q : Quantity) : UnitsContainer :=
  drop_zeros
    (fold_left (fun acc kv => accumulate_all (root_dimension ureg (fst kv)) (snd kv) acc)
               (root_units (units q)) []).

End WithRegistry.
End Pint.

(** ** Arrays *)

Module Np.

Definition row := list Q.
Definition matrix := list row.

Definition get (M : matrix) (i j : nat) : Q := nth j (nth i M []) 0%Q.

Fixpoint set_row (M : matrix) (i : nat) (r : row) : matrix :=
  match M, i with
  | [], _ => []
  | _ :: M', O => r :: M'
  | x :: M', S i' => x :: set_row M' i' r
  end.

(** Columns of a matrix given by rows (pint's [transpose]). *)
Fixpoint transpose_n (cols : nat) (M : matrix) : matrix :=
  match cols with
  | O => []
  | S c => map (fun r => hd 0%Q r) M :: transpose_n c (map (@tl Q) M)
  end.

Definition transpose (M : matrix) : matrix :=
  transpose_n (length (hd [] M)) M.

Definition identity (n : nat) : matrix :=
  map (fun i => map (fun j => if Nat.eqb i j then 1%Q else 0%Q) (seq 0 n)) (seq 0 n).

Definition is_zero (x : Q) : bool := Qeqb x 0.
Definition is_one (x : Q) : bool := Qeqb x 1.

(** [iv - lv * rv], entry by entry (fractions are kept in lowest terms). *)
Definition row_sub_mul (target : row) (lv : Q) (pivot : row) : row :=
  map (fun p => Qred (snd p - lv * fst p)%Q) (combine pivot target).

Definition row_div (r : row) (lv : Q) : row := map (fun x => Qred (x / lv)%Q) r.

(** The [while M[i][lead] == 0] loop of [column_echelon_form]: the first row
    [i >= r] with a non-zero entry in column [lead], moving to the next column
    when there is none; [None] when the columns are exhausted. *)
Definition first_nonzero (M : matrix) (r lead : nat) : option nat :=
  find (fun i => negb (is_zero (get M i lead))) (seq r (length M - r)).

Fixpoint find_pivot (fuel : nat) (M : matrix) (r lead cols : nat) : option (nat * nat) :=
  match first_nonzero M r lead with
  | Some i => Some (i, lead)
  | None =>
      match fuel with
      | O => None
      | S fuel' =>
          if Nat.eqb cols (S lead) then None
          else find_pivot fuel' M r (S lead) cols
      end
  end.

Definition swap_rows (M : matrix) (i r : nat) : matrix :=
  let Mi := nth i M [] in
  let Mr := nth r M [] in
  set_row (set_row M i Mr) r Mi.

(** One pass of [for i in range(rows): if i == r: continue; ...], on [M] and
    [I] together. *)
Definition eliminate (M I : matrix) (r lead : nat) : matrix * matrix :=
  let Mr := nth r M [] in
  let Ir := nth r I [] in
  let step := fun i =>
    let lv := get M i lead in
    if Nat.eqb i r then (nth i M [], nth i I [])
    else (row_sub_mul (nth i M []) lv Mr, row_sub_mul (nth i I []) lv Ir) in
  let rows := map step (seq 0 (length M)) in
  (map fst rows, map snd rows).

(** The body of [for r in range(rows)]; [inl] carries the state on, [inr] is
    a [return]. *)
Record echelon_state : Type := mkEchelon {
  eM : matrix; eI : matrix; eSwapped : list nat; eLead : nat
}.

Definition echelon_step (cols : nat) (st : echelon_state) (r : nat)
  : echelon_state + echelon_state :=
  if Nat.leb cols (eLead st) then inr st
  else
    match find_pivot (cols - eLead st) (eM st) r (eLead st) cols with
    | None => inr st
    | Some (i, lead) =>
        let M1 := swap_rows (eM st) i r in
        let I1 := swap_rows (eI st) i r in
        let lv := get M1 r lead in
        let M2 := set_row M1 r (row_div (nth r M1 []) lv) in
        let I2 := set_row I1 r (row_div (nth r I1 []) lv) in
        let '(M3, I3) := eliminate M2 I2 r lead in
        inl (mkEchelon M3 I3 (eSwapped st ++ [i]) (S lead))
    end.

Fixpoint echelon_loop (cols : nat) (st : echelon_state) (rs : list nat) : echelon_state :=
  match rs with
  | [] => st
  | r :: rs' =>
      match echelon_step cols st r with
      | inl st' => echelon_loop cols st' rs'
      | inr st' => st'
      end
  end.

(** [pint.util.column_echelon_form(matrix, ntype=float)]: the row echelon form
    of the transpose, the transform and the list [swapped].  The matrix is
    given by rows; an empty transpose raises at [len(M[0])]. *)
Definition column_echelon_form (mat : matrix) : result (matrix * matrix * list nat) :=
  let M := transpose mat in
  match M with
  | [] => Raise ShapeError
  | M0 :: _ =>
      let rows := length M in
      let cols := length M0 in
      let st := echelon_loop cols (mkEchelon M (identity rows) [] 0) (seq 0 rows) in
      Ok (eM st, eI st, eSwapped st)
  end.

End Np.

Import Np.

(** ** Linear solve and the {-1,0,1} test *)

(** [np.linalg.solve(A, b)] for [A] given by rows: Gauss-Jordan elimination on
    the augmented matrix.  A matrix that is not square or is singular raises. *)
Fixpoint gauss_jordan (cs : list nat) (M : matrix) : option matrix :=
  match cs with
  | [] => Some M
  | c :: cs' =>
      match first_nonzero M c c with
      | None => None
      | Some i =>
          let M1 := swap_rows M i c in
          let lv := get M1 c c in
          let M2 := set_row M1 c (row_div (nth c M1 []) lv) in
          gauss_jordan cs' (fst (eliminate M2 M2 c c))
      end
  end.

Definition linalg_solve (A : matrix) (b : row) : result row :=
  let n := length A in
  if negb (forallb (fun r => Nat.eqb (length r) n) A && Nat.eqb (length b) n)
  then Raise LinAlgError
  else
    match gauss_jordan (seq 0 n) (map (fun p => fst p ++ [snd p]) (combine A b)) with
    | None => Raise LinAlgError
    | Some M => Ok (map (fun r => last r 0%Q) M)
    end.

(** [np.array_equal(np.abs(row), np.abs(row).astype(bool))]: every entry is
    -1, 0 or 1. *)
Definition posNegBooleanEntry (x : Q) : bool :=
  Qeqb (Qabs x) (if is_zero (Qabs x) then 0%Q else 1%Q).

Definition posNegBooleanRow (r : row) : bool := forallb posNegBooleanEntry r.

(** [checkIfPosNegBoolean(array)] on a vector ([axis=None]). *)
Definition checkIfPosNegBoolean (array : row) : bool := posNegBooleanRow array.

(** [checkIfPosNegBoolean(array, axis=1)]: [np.apply_along_axis] raises on an
    array without rows. *)
Definition checkIfPosNegBoolean_axis (array : matrix) : result bool :=
  match array with
  | [] => Raise ShapeError
  | _ => Ok (existsb posNegBooleanRow array)
  end.

(** ** The table of dimensions *)

(** [self.dimMatrix]: row labels (dimensions) and labelled integer columns
    (one per base unit), in order. *)
Record DataFrame : Type := mkDataFrame {
  index : list string;
  columns : list (string * list Z)
}.

Definition column_labels (df : DataFrame) : list string := map fst (columns df).

(** [np.array(df)], by rows. *)
Definition to_array (df : DataFrame) : matrix :=
  map (fun i => map (fun c => inject_Z (nth i (snd c) 0)) (columns df))
      (seq 0 (length (index df))).

Definition eq_col (a b : list Z) : bool :=
  Nat.eqb (length a) (length b) && forallb (fun p => fst p =? snd p) (combine a b).

(** [df.drop(labels, axis=1)]. *)
Definition drop_columns (labels : list string) (df : DataFrame) : DataFrame :=
  mkDataFrame (index df) (filter (fun c => negb (inb (fst c) labels)) (columns df)).

(** [df.T.duplicated()]: a column is marked when an earlier column holds the
    same values. *)
Fixpoint duplicated_from (seen : list (list Z)) (cs : list (string * list Z))
  : list (string * bool) :=
  match cs with
  | [] => []
  | (l, v) :: cs' => (l, existsb (eq_col v) seen) :: duplicated_from (seen ++ [v]) cs'
  end.

Definition duplicated (df : DataFrame) : list (string * bool) :=
  duplicated_from [] (columns df).

(** [df.T.drop_duplicates().T]: the first column of each value. *)
Fixpoint drop_duplicates_from (seen : list (list Z)) (cs : list (string * list Z))
  : list (string * list Z) :=
  match cs with
  | [] => []
  | (l, v) :: cs' =>
      if existsb (eq_col v) seen then drop_duplicates_from seen cs'
      else (l, v) :: drop_duplicates_from (seen ++ [v]) cs'
  end.

(** The vector of a unit's dimensionality over the row labels. *)
Definition dim_column (idx : list string) (dim : UnitsContainer) : list Z :=
  map (fun d => lookupZ d dim) idx.

(** ** The class [UnitHandling] *)

Module UnitHandling.
Import Pint.

Record DimAnalysis : Type := mkDimAnalysis {
  dependentUnits : list string;
  dependentDims : matrix
}.

(** The attributes of an instance ([folderPath] only names the files read and
    [ureg] is the section variable below). *)
Record t : Type := mkUnitHandling {
  roundingDecimalPoints : Z;
  baseUnits : list (string * UnitsContainer);
  dimMatrix : DataFrame;
  dimAnalysis : DimAnalysis
}.

(** [d[k] = v] on a dict kept in insertion order. *)
Fixpoint dict_set (k : string) (v : UnitsContainer) (d : list (string * UnitsContainer))
  : list (string * UnitsContainer) :=
  match d with
  | [] => [(k, v)]
  | (k', v') :: d' =>
      if String.eqb k k' then (k', v) :: d' else (k', v') :: dict_set k v d'
  end.

Fixpoint dict_get (k : string) (d : list (string * UnitsContainer)) : UnitsContainer :=
  match d with
  | [] => []
  | (k', v) :: d' => if String.eqb k k' then v else dict_get k d'
  end.

(** [k in d]. *)
Definition dict_mem (k : string) (d : list (string * UnitsContainer)) : bool :=
  inb k (map fst d).

(** New labels of [ks] appended to [idx], in order. *)
Definition add_labels (idx ks : list string) : list string :=
  fold_left (fun acc k => if inb k acc then acc else acc ++ [k]) ks idx.

Section Engine.
Variable ureg : Registry.

(** The dimensionality of every listed symbol, in order; the first symbol the
    registry cannot parse raises. *)
Fixpoint dimensionalities (symbols : list string) : result (list (string * UnitsContainer)) :=
  match symbols with
  | [] => Ok []
  | s :: rest =>
      match parse ureg s with
      | None => Raise UndefinedUnitError
      | Some q =>
          ds <- dimensionalities rest ;;
          Ok ((s, get_dimensionality ureg q) :: ds)
      end
  end.

(** The first loop of [getBaseUnits] and the transposition: [self.baseUnits]
    and [self.dimMatrix] before the duplicate check. *)
Definition build_dimMatrix (dims : list (string * UnitsContainer))
  : list (string * UnitsContainer) * DataFrame :=
  let bu := fold_left (fun d sv => dict_set (fst sv) (snd sv) d) dims [] in
  let idx := fold_left (fun acc sv => add_labels acc (keys (snd sv))) dims [] in
  (bu, mkDataFrame idx (map (fun sv => (fst sv, dim_column idx (snd sv))) dims)).

(** The loop [for _duplicate in _dimMatrixDuplicate]; the second component
    collects the symbols a warning was logged for. *)
Fixpoint drop_duplicate_units (dups : list string) (bu : list (string * UnitsContainer))
  (df : DataFrame) (warned : list string) : result (DataFrame * list string) :=
  match dups with
  | [] => Ok (df, warned)
  | d :: rest =>
      match filter (fun c => String.eqb (fst c) d) (columns df) with
      | [] => Raise ShapeError
      | [_] => Raise (DuplicateDimensionError (dict_get d bu) d)
      | sel =>
          match drop_duplicates_from [] sel with
          | [c] =>
              drop_duplicate_units rest bu
                (mkDataFrame (index df) (columns (drop_columns [d] df) ++ [(d, snd c)]))
                (warned ++ [d])
          | _ => Raise ShapeError
          end
      end
  end.

Definition check_duplicates (bu : list (string * UnitsContainer)) (df : DataFrame)
  : result (DataFrame * list string) :=
  let dups := map fst (filter snd (duplicated df)) in
  drop_duplicate_units dups bu df [].

(** Indices of the rows of [M] that are zero throughout
    ([np.argwhere(np.all(M==0,axis=1))]). *)
Definition zero_rows (M : matrix) : list nat :=
  filter (fun i => forallb is_zero (nth i M [])) (seq 0 (length M)).

(** [list(set(range(n)).difference(pivot))], in ascending order. *)
Definition not_in_pivot (n : nat) (pivot : list nat) : list nat :=
  filter (fun i => negb (existsb (Nat.eqb i) pivot)) (seq 0 n).

Definition take_columns (idx : list nat) (A : matrix) : matrix :=
  map (fun r => map (fun j => nth j r 0%Q) idx) A.

(** [np.argwhere(D == 1)], row by row. *)
Definition argwhere_one (D : matrix) : list (nat * nat) :=
  flat_map (fun t => map (fun c => (t, c))
                         (filter (fun c => is_one (get D t c))
                                 (seq 0 (length (nth t D [])))))
           (seq 0 (length D)).

(** [A[rows,:]]. *)
Fixpoint take_rows (rows : list nat) (A : matrix) : result matrix :=
  match rows with
  | [] => Ok []
  | i :: rest =>
      match nth_error A i with
      | None => Raise ShapeError
      | Some r => rs <- take_rows rest A ;; Ok (r :: rs)
      end
  end.

(** Lines 55 to 80 of the source: what is read from the echelon form [M], the
    transform [I_] and the list [pivot]: the dependent units and their
    (reordered) dependency vectors. *)
Definition dependency_rows (nBaseUnits : nat) (df : DataFrame)
  (M I_ : matrix) (pivot : list nat) : result DimAnalysis :=
  (* [np.all(M==0,axis=1)] needs two axes after [squeeze] *)
  assert (Nat.ltb 1 (length M) && Nat.ltb 1 (length (hd [] M))) ShapeError ;;;
  let idxLinDep := zero_rows M in
  (* a single pivot squeezes to a 0-d array, which a set cannot iterate *)
  assert (negb (Nat.eqb (length pivot) 1)) ShapeError ;;;
  let idxLinDepDimMatrix := not_in_pivot nBaseUnits pivot in
  assert (forallb (fun j => Nat.ltb j (length (columns df))) idxLinDepDimMatrix)
         ShapeError ;;;
  let depUnits := map (fun j => nth j (column_labels df) "") idxLinDepDimMatrix in
  let rowsI := map (fun i => nth i I_ []) idxLinDep in
  (* shape of [I[idxLinDep,:]] and the reshape for a single dependent unit *)
  dims0 <-
    (if Nat.eqb (length depUnits) 1 then
       match rowsI with
       | [] => Raise ShapeError          (* shape (1,0): no column can be taken *)
       | _ => Ok [concat rowsI]
       end
     else
       match rowsI with
       | [] => Raise ShapeError          (* no rows: [apply_along_axis] raises *)
       | [_] => Raise ShapeError         (* one axis only: [[:,idx]] raises *)
       | _ => Ok rowsI
       end) ;;
  let DimOfDependentUnits := take_columns idxLinDepDimMatrix dims0 in
  let diag_len := Nat.min (length DimOfDependentUnits) (length idxLinDepDimMatrix) in
  dims1 <-
    (if forallb (fun k => is_one (get DimOfDependentUnits k k)) (seq 0 diag_len)
     then Ok dims0
     else
       let posOnes := argwhere_one DimOfDependentUnits in
       assert (Nat.eqb (length posOnes) (length depUnits))
              AmbiguousDependencyOrderError ;;;
       take_rows (map snd posOnes) dims0) ;;
  Ok (mkDimAnalysis depUnits dims1).

(** Line 82: no dependency vector may consist of -1, 0 and 1 only. *)
Definition check_constructible (da : DimAnalysis) : result DimAnalysis :=
  constructible <- checkIfPosNegBoolean_axis (dependentDims da) ;;
  assert (negb constructible) ConstructibleBaseUnitError ;;;
  Ok da.

(** Lines 54 to 80, and lines 54 to 82, of the source. *)
Definition dependency_record (nBaseUnits : nat) (df : DataFrame) : result DimAnalysis :=
  e <- column_echelon_form (to_array df) ;;
  let '(M, I_, pivot) := e in
  dependency_rows nBaseUnits df M I_ pivot.

Definition analyse (nBaseUnits : nat) (df : DataFrame) : result DimAnalysis :=
  da <- dependency_record nBaseUnits df ;;
  check_constructible da.

(** [__init__] with the list that [extractBaseUnits] reads: the instance and
    the warnings logged. *)
Definition getBaseUnits (listBaseUnits : list string) (roundDecimalPoints : Z)
  : result (t * list string) :=
  dims <- dimensionalities listBaseUnits ;;
  let '(bu, df0) := build_dimMatrix dims in
  dw <- check_duplicates bu df0 ;;
  let '(df, warned) := dw in
  da <- analyse (length bu) df ;;
  Ok (mkUnitHandling roundDecimalPoints bu df da, warned).

(** *** [getUnitMultiplier] *)

(** The argument of [getUnitMultiplier]: a string, the float [nan] that an
    empty cell is read as, or [None]. *)
Inductive InputUnit : Type :=
| Str (s : string)
| NaN
| PyNone.

(** A pint [Unit] (what [.units] returns) or a [Quantity]: a [Unit] times a
    [Quantity] is a [Quantity], and only a [Quantity] has [to_base_units]. *)
Inductive Combined : Type :=
| CUnit (u : UnitsContainer)
| CQuantity (q : Quantity).

Definition as_quantity (c : Combined) : Quantity :=
  match c with
  | CUnit u => mkQuantity 1 u
  | CQuantity q => q
  end.

(** [combinedUnit *= q]. *)
Definition cmul (c : Combined) (q : Quantity) : Combined :=
  CQuantity (qmul (as_quantity c) q).

Definition ureg_call (s : string) : result Quantity :=
  match parse ureg s with
  | Some q => Ok q
  | None => Raise UndefinedUnitError
  end.

(** [checkIfInvalidHourString]. *)
Definition checkIfInvalidHourString (inputUnit : string) : result unit :=
  q <- ureg_call inputUnit ;;
  let _listUnits := map fst (units q) in
  assert (negb (inb "planck_constant" _listUnits)) (AmbiguousUnitTokenError inputUnit).

(** The exponent [-1*power] of a solved power; it is only taken of powers that
    passed [checkIfPosNegBoolean], which are integers. *)
Definition neg_power (power : Q) : Z := - Qfloor power.

(** [for unit,power in zip(columns,solution): combinedUnit *= self.ureg(unit)**(-1*power)]. *)
Fixpoint compose (c : Combined) (ups : list (string * Q)) : result Combined :=
  match ups with
  | [] => Ok c
  | (unit, power) :: rest =>
      q <- ureg_call unit ;;
      compose (cmul c (qpow q (neg_power power))) rest
  end.

(** [dimMatrix.isin(dimVector).all(axis=0)], with the sign applied to the
    matrix first: the labels of the columns equal to the vector. *)
Definition matching_columns (sign : Z) (df : DataFrame) (dimVector : list Z) : list string :=
  map fst (filter (fun c => eq_col (map (Z.mul sign) (snd c)) dimVector) (columns df)).

(** [np.linalg.solve(df, dimVector)]. *)
Definition solve_frame (df : DataFrame) (dimVector : list Z) : result row :=
  linalg_solve (to_array df) (map inject_Z dimVector).

(** [list(columns).index(unit)]. *)
Fixpoint index_of (unit : string) (labels : list string) : option nat :=
  match labels with
  | [] => None
  | l :: rest =>
      if String.eqb unit l then Some O else option_map S (index_of unit rest)
  end.

Definition Qgtb (a b : Q) : bool := negb (Qle_bool a b).

Section Resolve.
Variable self : t.
Variable dimVector : list Z.

Let dimMatrixReduced : DataFrame :=
  drop_columns (dependentUnits (dimAnalysis self)) (dimMatrix self).

(** The loop over the dependent units (lines 139 to 151) for one [unit] and
    [power]: [Some] of the composed unit at the first substitution whose
    solution is in {-1,0,1}. *)
Fixpoint substitute (c : Combined) (unit : string) (power : Q)
  (deps : list (string * row)) : result (option Combined) :=
  match deps with
  | [] => Ok None
  | (dependentUnit, dependentDim) :: rest =>
      match index_of unit (column_labels dimMatrixReduced) with
      | None => Raise ShapeError
      | Some idxUnitInMatrixReduced =>
          match nth_error dependentDim idxUnitInMatrixReduced with
          | None => Raise ShapeError
          | Some e =>
              if Qeqb (Qabs e) (Qabs power) then
                match filter (fun col => String.eqb (fst col) dependentUnit)
                             (columns (dimMatrix self)) with
                | [col] =>
                    let dimMatrixReducedTemp :=
                      mkDataFrame (index dimMatrixReduced)
                        (columns (drop_columns [unit] dimMatrixReduced)
                           ++ [(dependentUnit, snd col)]) in
                    combinationSolutionTemp <- solve_frame dimMatrixReducedTemp dimVector ;;
                    if checkIfPosNegBoolean combinationSolutionTemp then
                      c' <- compose c (combine (column_labels dimMatrixReducedTemp)
                                               combinationSolutionTemp) ;;
                      Ok (Some c')
                    else substitute c unit power rest
                | _ => Raise ShapeError
                end
              else substitute c unit power rest
          end
      end
  end.

(** The loop over the solved powers (lines 135 to 151). *)
Fixpoint fallback (c : Combined) (ups : list (string * Q)) : result (option Combined) :=
  match ups with
  | [] => Ok None
  | (unit, power) :: rest =>
      if Qgtb (Qabs power) 1 then
        r <- substitute c unit power
               (combine (dependentUnits (dimAnalysis self))
                        (dependentDims (dimAnalysis self))) ;;
        match r with
        | Some c' => Ok (Some c')
        | None => fallback c rest
        end
      else fallback c rest
  end.

(** Lines 113 to 152: the dimensionless combined unit. *)
Definition combine_units (inputUnit : string) : result Combined :=
  q <- ureg_call inputUnit ;;
  let combinedUnit := CUnit (units q) in
  match matching_columns 1 (dimMatrix self) dimVector with
  | b :: _ =>
      _baseUnit <- ureg_call b ;;
      Ok (cmul combinedUnit (qpow _baseUnit (-1)))
  | [] =>
      match matching_columns (-1) (dimMatrix self) dimVector with
      | b :: _ =>
          _baseUnit <- ureg_call b ;;
          Ok (cmul combinedUnit _baseUnit)
      | [] =>
          assert (forallb (fun d => inb d (column_labels (dimMatrix self)))
                          (dependentUnits (dimAnalysis self))) ShapeError ;;;
          combinationSolution <- solve_frame dimMatrixReduced dimVector ;;
          let ups := combine (column_labels dimMatrixReduced) combinationSolution in
          if checkIfPosNegBoolean combinationSolution then compose combinedUnit ups
          else
            r <- fallback combinedUnit ups ;;
            match r with
            | Some c => Ok c
            | None => Raise UnresolvedConversionError
            end
      end
  end.

End Resolve.

(** [10**(-roundingDecimalPoints)]. *)
Definition tolerance (digits : Z) : Q := ((10 # 1) ^ (- digits))%Q.

(** Rounding to the nearest integer, ties to the even one. *)
Definition round_half_even (x : Q) : Z :=
  let f := Qfloor x in
  let d := (x - inject_Z f)%Q in
  match (d ?= 1 # 2)%Q with
  | Lt => f
  | Gt => f + 1
  | Eq => if Z.even f then f else f + 1
  end.

(** [round(x, digits)]. *)
Definition py_round (x : Q) (digits : Z) : Q :=
  (inject_Z (round_half_even (x * (10 # 1) ^ digits)) / (10 # 1) ^ digits)%Q.

(** Lines 153 to 159: the checks on the combined unit and the rounding. *)
Definition finalise (digits : Z) (combinedUnit : Combined) : result Q :=
  match combinedUnit with
  | CUnit _ => Raise ShapeError      (* a [Unit] has no [to_base_units] *)
  | CQuantity q =>
      let b := to_base_units ureg q in
      assert (unitless b) InternalConsistencyError ;;;
      let multiplier := magnitude b in
      assert (Qle_bool (tolerance digits) multiplier) ToleranceError ;;;
      Ok (py_round multiplier digits)
  end.

(** Lines 105 to 152 for a string that is not a base unit. *)
Definition resolve (self : t) (inputUnit : string) : result Combined :=
  checkIfInvalidHourString inputUnit ;;;
  q <- ureg_call inputUnit ;;
  let dimInput := get_dimensionality ureg q in
  let _missingDim :=
    filter (fun k => negb (inb k (index (dimMatrix self)))) (keys dimInput) in
  assert (match _missingDim with [] => true | _ => false end)
         (MissingDimensionError _missingDim) ;;;
  combine_units self (dim_column (index (dimMatrix self)) dimInput) inputUnit.

Definition getUnitMultiplier (self : t) (inputUnit : InputUnit) : result Q :=
  match inputUnit with
  | Str s =>
      if dict_mem s (baseUnits self) then Ok 1%Q
      else
        combinedUnit <- resolve self s ;;
        finalise (roundingDecimalPoints self) combinedUnit
  | NaN => Ok 1%Q
  | PyNone => Raise ShapeError       (* [np.isnan(None)] is a TypeError *)
  end.

End Engine.
End UnitHandling.

(** ** A registry fragment

    A small vocabulary in the shape pint gives it, used to run the model on
    concrete configurations: root units meter, second, kilogram and Euro; the
    empty string parses to the dimensionless quantity 1, and the symbol "h" to
    the Planck constant. *)

Module Vocabulary.
Import Pint.

Record entry : Type := named {
  symbol : string;            (* what the user writes *)
  name : string;              (* the canonical name in factor lists *)
  factor : Q;                 (* factor to root units *)
  root : UnitsContainer       (* expression in root units *)
}.

Definition table : list entry :=
  [ named "m" "meter" 1 [("meter", 1)];
    named "s" "second" 1 [("second", 1)];
    named "kg" "kilogram" 1 [("kilogram", 1)];
    named "Euro" "Euro" 1 [("Euro", 1)];
    named "km" "kilometer" 1000 [("meter", 1)];
    named "hour" "hour" 3600 [("second", 1)];
    named "ton" "ton" 1000 [("kilogram", 1)];
    named "lb" "pound" (45359237 # 100000000) [("kilogram", 1)];
    named "ng" "nanogram" (1 # 1000000000000) [("kilogram", 1)];
    named "hectare" "hectare" 10000 [("meter", 2)];
    named "liter" "liter" (1 # 1000) [("meter", 3)];
    named "W" "watt" 1 [("kilogram", 1); ("meter", 2); ("second", -3)];
    named "J" "joule" 1 [("kilogram", 1); ("meter", 2); ("second", -2)];
    named "GW" "gigawatt" 1000000000 [("kilogram", 1); ("meter", 2); ("second", -3)];
    named "GWh" "gigawatt_hour" 3600000000000
          [("kilogram", 1); ("meter", 2); ("second", -2)];
    named "kWh" "kilowatt_hour" 3600000
          [("kilogram", 1); ("meter", 2); ("second", -2)];
    named "h" "planck_constant" (662607015 # 1000000000000000000000000000000000000000000)
          [("kilogram", 1); ("meter", 2); ("second", -1)] ].

(** Compound expressions: the parser returns their factor lists. *)
Definition compounds : list (string * Quantity) :=
  [ ("", mkQuantity 1 []);
    ("kilometer", mkQuantity 1 [("kilometer", 1)]);
    ("J*s", mkQuantity 1 [("joule", 1); ("second", 1)]);
    ("m**4", mkQuantity 1 [("meter", 4)]);
    ("km/hour", mkQuantity 1 [("kilometer", 1); ("hour", -1)]);
    ("GW/hour", mkQuantity 1 [("gigawatt", 1); ("hour", -1)]);
    ("m/s", mkQuantity 1 [("meter", 1); ("second", -1)]);
    ("1/(ton*Euro**2)", mkQuantity 1 [("ton", -1); ("Euro", -2)]);
    ("1/(Euro*km**2)", mkQuantity 1 [("Euro", -1); ("kilometer", -2)]);
    ("kg*h", mkQuantity 1 [("kilogram", 1); ("planck_constant", 1)]) ].

Fixpoint lookup {A : Type} (k : string) (l : list (string * A)) : option A :=
  match l with
  | [] => None
  | (k', v) :: l' => if String.eqb k k' then Some v else lookup k l'
  end.

Definition parse_symbol (s : string) : option Quantity :=
  match lookup s compounds with
  | Some q => Some q
  | None =>
      option_map (fun e => mkQuantity 1 [(name e, 1)])
                 (find (fun e => String.eqb s (symbol e)) table)
  end.

Definition definition_of (n : string) : Q * UnitsContainer :=
  match find (fun e => String.eqb n (name e)) table with
  | Some e => (factor e, root e)
  | None => (1%Q, [(n, 1)])
  end.

Definition dimension_of_root (name : string) : UnitsContainer :=
  if String.eqb name "meter" then [("[length]", 1)]
  else if String.eqb name "second" then [("[time]", 1)]
  else if String.eqb name "kilogram" then [("[mass]", 1)]
  else if String.eqb name "Euro" then [("[currency]", 1)]
  else [].

Definition ureg : Registry := mkRegistry parse_symbol definition_of dimension_of_root.

End Vocabulary.

Import Pint UnitHandling.

(** ** Notions used in the statements *)

Section Statements.
Variable ureg : Registry.
Variable self : UnitHandling.t.

(** The hypotheses under which a string passes the guard and the check for
    missing dimensions, and the vector of its dimensionality. *)
Definition passes_guards (s : string) (q : Quantity) : Prop :=
  dict_mem s (baseUnits self) = false
  /\ parse ureg s = Some q
  /\ inb "planck_constant" (map fst (units q)) = false
  /\ filter (fun k => negb (inb k (index (dimMatrix self))))
            (keys (get_dimensionality ureg q)) = [].

Definition dimVector_of (q : Quantity) : list Z :=
  dim_column (index (dimMatrix self)) (get_dimensionality ureg q).

(** The magnitude of a quantity in root units: what the spec calls the
    external magnitude of a unit. *)
Definition external_magnitude (q : Quantity) : Q := magnitude (to_base_units ureg q).

(** The independent base units: the columns of [dimMatrixReduced]. *)
Definition independentUnits : list string :=
  column_labels (drop_columns (dependentUnits (dimAnalysis self)) (dimMatrix self)).


End Statements.

(** Two lists of seen columns that mark the same vectors. *)
Definition same_members (s1 s2 : list (list Z)) : Prop :=
  forall w, existsb (eq_col w) s1 = existsb (eq_col w) s2.

(** Every entry is -1, 0 or 1. *)
Definition purely_pos_neg_boolean (r : row) : Prop :=
  Forall (fun x => (x == -1 \/ x == 0 \/ x == 1)%Q) r.

(** Following the words of the spec: the i-th dependency vector has entry 1 at
    the column of the i-th dependent unit. *)
Definition own_entry (self : UnitHandling.t) (i : nat) : option Q :=
  match index_of (nth i (dependentUnits (dimAnalysis self)) "")
                 (column_labels (dimMatrix self)) with
  | Some j => option_map (fun r => nth j r 0%Q)
                         (nth_error (dependentDims (dimAnalysis self)) i)
  | None => None
  end.

Definition own_entries_are_one (self : UnitHandling.t) : bool :=
  forallb (fun i => match own_entry self i with
                    | Some e => is_one e
                    | None => false
                    end)
          (seq 0 (length (dependentUnits (dimAnalysis self)))).

(** ** Notions used for constructed instances *)

(** [ureg(s).dimensionality], for a symbol the registry parses. *)
Definition dimensionality_of (ureg : Registry) (s : string) : UnitsContainer :=
  match parse ureg s with
  | Some q => get_dimensionality ureg q
  | None => []
  end.

(** ** Notions used for the fallback *)

Section Substitution.
Variable ureg : Registry.
Variable self : UnitHandling.t.

(** [dimMatrixReducedTemp]: the independent columns without [unit], followed
    by the column [v] of [dependentUnit]. *)
Definition substituted_frame (unit dependentUnit : string) (v : list Z) : DataFrame :=
  let reduced := drop_columns (dependentUnits (dimAnalysis self)) (dimMatrix self) in
  mkDataFrame (index reduced)
              (columns (drop_columns [unit] reduced) ++ [(dependentUnit, v)]).

(** The combined unit [c'] comes from [c] by one substitution: the independent
    unit [unit], solved with [power], is replaced by the dependent unit
    [dependentUnit], whose vector has an entry of the same absolute value at
    the position [unit] has among the independent columns; the substituted
    system has a solution in {-1,0,1}, and [c'] is [c] composed with it. *)
Definition one_substitution (dimVector : list Z) (c : Combined)
  (unit : string) (power : Q) (dependentUnit : string) (c' : Combined) : Prop :=
  exists (dependentDim : row) (idx : nat) (e : Q) (v : list Z) (sol : row),
    In (dependentUnit, dependentDim)
       (combine (dependentUnits (dimAnalysis self)) (dependentDims (dimAnalysis self)))
    /\ index_of unit (independentUnits self) = Some idx
    /\ nth_error dependentDim idx = Some e
    /\ (Qabs e == Qabs power)%Q
    /\ map snd (filter (fun col => String.eqb (fst col) dependentUnit)
                       (columns (dimMatrix self))) = [v]
    /\ solve_frame (substituted_frame unit dependentUnit v) dimVector = Ok sol
    /\ checkIfPosNegBoolean sol = true
    /\ compose ureg c (combine (column_labels (substituted_frame unit dependentUnit v)) sol)
       = Ok c'.

End Substitution.

(** * Properties *)

(** ** Configurations used as examples *)

Module Examples.
Import Vocabulary.

(** The instance of a configuration known to construct. *)
Definition unwrap (r : result (UnitHandling.t * list string)) : UnitHandling.t :=
  match r with
  | Ok (self, _) => self
  | Raise _ => mkUnitHandling 0 [] (mkDataFrame [] []) (mkDimAnalysis [] [])
  end.

(** Mass, length, time, currency and energy. *)
Definition energy_system : list string := ["ton"; "km"; "hour"; "Euro"; "GWh"].

(** Energy, time and a ramp rate: three dimensions, two independent units. *)
Definition ramp_system : list string := ["GWh"; "hour"; "GW/hour"].

(** A system that declares the symbol "h" as a base unit. *)
Definition planck_system : list string := ["ton"; "km"; "hour"; "Euro"; "h"].

Definition energy_engine (digits : Z) : UnitHandling.t :=
  unwrap (getBaseUnits ureg energy_system digits).

(** The energy system with the kilogram as the unit of mass. *)
Definition kg_system : list string := ["kg"; "km"; "hour"; "Euro"; "GWh"].

Definition kg_engine (digits : Z) : UnitHandling.t :=
  unwrap (getBaseUnits ureg kg_system digits).

(** Length, area, volume and a fourth power of length, with time and mass:
    three dependent units. *)
Definition powers_system : list string := ["m"; "hectare"; "liter"; "m**4"; "s"; "kg"].

Definition powers_engine : UnitHandling.t := unwrap (getBaseUnits ureg powers_system 6).

(** Power, time and energy. *)
Definition power_system : list string := ["GW"; "hour"; "GWh"].

Definition ramp_engine : UnitHandling.t := unwrap (getBaseUnits ureg ramp_system 6).

Definition planck_engine : UnitHandling.t := unwrap (getBaseUnits ureg planck_system 6).

End Examples.

(** Further configurations. *)
Module FurtherExamples.
Import Vocabulary Examples.

(** The energy system with the hectare in the place of a unit of length. *)
Definition area_system : list string := ["ton"; "hectare"; "hour"; "Euro"; "GWh"].

Definition area_engine : UnitHandling.t := unwrap (getBaseUnits ureg area_system 6).

(** The vocabulary with the radian: a root unit without a dimension. *)
Definition angle_ureg : Registry :=
  mkRegistry (fun s => if String.eqb s "rad" then Some (mkQuantity 1 [("radian", 1)])
                       else parse_symbol s)
             definition_of dimension_of_root.

(** The vocabulary with the radian and the milliradian. *)
Definition milli_angle_ureg : Registry :=
  mkRegistry (fun s => if String.eqb s "rad" then Some (mkQuantity 1 [("radian", 1)])
                       else if String.eqb s "mrad" then Some (mkQuantity 1 [("milliradian", 1)])
                       else parse_symbol s)
             (fun n => if String.eqb n "milliradian" then ((1 # 1000)%Q, [("radian", 1)])
                       else definition_of n)
             dimension_of_root.

(** Speed, mass, length and time: the hour is the quotient of the kilometer
    and the kilometer per hour.  The same units with the ton declared last. *)
Definition speed_system : list string := ["km/hour"; "ton"; "km"; "hour"].

Definition speed_system_reordered : list string := ["km/hour"; "km"; "hour"; "ton"].

(** The frame of [speed_system]. *)
Definition speed_frame : DataFrame :=
  mkDataFrame ["[length]"; "[time]"; "[mass]"]
              [("km/hour", [1; -1; 0]); ("ton", [0; 0; 1]);
               ("km", [1; 0; 0]); ("hour", [0; 1; 0])].

(** An instance with another dependency record. *)
Definition with_dimAnalysis (self : UnitHandling.t) (da : DimAnalysis) : UnitHandling.t :=
  mkUnitHandling (roundingDecimalPoints self) (baseUnits self) (dimMatrix self) da.

End FurtherExamples.

(** ** Identity, absent input and the guard on "h" *)

Section Guards.
Variable ureg : Registry.
Variable self : UnitHandling.t.

Lemma guard_raises (s : string) (q : Quantity) :
  parse ureg s = Some q ->
  inb "planck_constant" (map fst (units q)) = true ->
  resolve ureg self s = Raise (AmbiguousUnitTokenError s).
Proof.
  intros Hp Hin.
  unfold resolve, checkIfInvalidHourString, ureg_call.
  rewrite Hp. cbn [bind]. rewrite Hin. reflexivity.
Qed.

(** C8: for every configured base-unit symbol [b], [getUnitMultiplier(b)]
    returns exactly 1, whatever the registry holds: neither the parser nor any
    later step is consulted. *)
Theorem multiplier_of_base_unit (b : string) :
  dict_mem b (baseUnits self) = true ->
  getUnitMultiplier ureg self (Str b) = Ok 1%Q.
Proof.
  intros Hb. unfold getUnitMultiplier. rewrite Hb. reflexivity.
Qed.

(** C9 (as amended): an absent unit given as the float nan yields 1. *)
Theorem multiplier_of_nan : getUnitMultiplier ureg self NaN = Ok 1%Q.
Proof. reflexivity. Qed.

(** C1 (as amended): when "h" is not a base-unit symbol and the registry reads
    "h" as a factor list that holds the token "planck_constant",
    [getUnitMultiplier("h")] fails with the ambiguous-unit error. *)
Theorem multiplier_of_h (q : Quantity) :
  dict_mem "h" (baseUnits self) = false ->
  parse ureg "h" = Some q ->
  inb "planck_constant" (map fst (units q)) = true ->
  getUnitMultiplier ureg self (Str "h") = Raise (AmbiguousUnitTokenError "h").
Proof.
  intros Hb Hp Hin. unfold getUnitMultiplier. rewrite Hb.
  rewrite (guard_raises "h" q Hp Hin). reflexivity.
Qed.

(** C10: for every string that is not a base-unit symbol, if the factor list of
    the parsed expression holds the token "planck_constant" then
    [getUnitMultiplier] fails with the ambiguous-unit error, and it does so in
    the guard: the resolution of the dimensionality is never entered. *)
Theorem guard_covers_compound_units (s : string) (q : Quantity) :
  dict_mem s (baseUnits self) = false ->
  parse ureg s = Some q ->
  inb "planck_constant" (map fst (units q)) = true ->
  checkIfInvalidHourString ureg s = Raise (AmbiguousUnitTokenError s)
  /\ getUnitMultiplier ureg self (Str s) = Raise (AmbiguousUnitTokenError s).
Proof.
  intros Hb Hp Hin. split.
  - unfold checkIfInvalidHourString, ureg_call. rewrite Hp. cbn [bind].
    rewrite Hin. reflexivity.
  - unfold getUnitMultiplier. rewrite Hb.
    rewrite (guard_raises s q Hp Hin). reflexivity.
Qed.

End Guards.

Import Examples.

Lemma multiplier_of_base_unit_witness :
  dict_mem "km" (baseUnits (energy_engine 6)) = true
  /\ getUnitMultiplier Vocabulary.ureg (energy_engine 6) (Str "km") = Ok 1%Q.
Proof.
  split.
  - vm_compute. reflexivity.
  - apply multiplier_of_base_unit. vm_compute. reflexivity.
Defined.

Lemma multiplier_of_h_witness :
  getUnitMultiplier Vocabulary.ureg (energy_engine 6) (Str "h")
  = Raise (AmbiguousUnitTokenError "h").
Proof.
  apply (multiplier_of_h Vocabulary.ureg (energy_engine 6)
           (mkQuantity 1 [("planck_constant", 1)])).
  - vm_compute. reflexivity.
  - vm_compute. reflexivity.
  - vm_compute. reflexivity.
Defined.

Lemma guard_covers_compound_units_witness :
  checkIfInvalidHourString Vocabulary.ureg "kg*h" = Raise (AmbiguousUnitTokenError "kg*h")
  /\ getUnitMultiplier Vocabulary.ureg (energy_engine 6) (Str "kg*h")
     = Raise (AmbiguousUnitTokenError "kg*h").
Proof.
  apply (guard_covers_compound_units Vocabulary.ureg (energy_engine 6) "kg*h"
           (mkQuantity 1 [("kilogram", 1); ("planck_constant", 1)])).
  - vm_compute. reflexivity.
  - vm_compute. reflexivity.
  - vm_compute. reflexivity.
Defined.

(** C1 fails as stated: with "h" among the base units the system constructs,
    and [getUnitMultiplier("h")] returns 1 from the identity branch although the
    registry reads "h" as the Planck constant. *)
Lemma h_as_base_unit_returns_one :
  getBaseUnits Vocabulary.ureg planck_system 6 = Ok (planck_engine, [])
  /\ dict_mem "h" (baseUnits planck_engine) = true
  /\ option_map (fun q => map fst (units q)) (parse Vocabulary.ureg "h")
     = Some ["planck_constant"]
  /\ getUnitMultiplier Vocabulary.ureg planck_engine (Str "h") = Ok 1%Q.
Proof. repeat split; vm_compute; reflexivity. Qed.

(** C9 fails as stated: the empty string is not taken as absent.  It is parsed
    (to the dimensionless 1) and resolved; in a system whose independent units
    do not span the dimensions the linear solve raises.  [None] raises too. *)
Lemma empty_string_is_resolved :
  getBaseUnits Vocabulary.ureg ramp_system 6 = Ok (ramp_engine, [])
  /\ parse Vocabulary.ureg "" = Some (mkQuantity 1 [])
  /\ getUnitMultiplier Vocabulary.ureg ramp_engine (Str "") = Raise LinAlgError
  /\ getUnitMultiplier Vocabulary.ureg ramp_engine PyNone = Raise ShapeError.
Proof. repeat split; vm_compute; reflexivity. Qed.

(** ** The final checks: tolerance and rounding *)

Lemma pow10_pos (n : Z) : (0 < (10 # 1) ^ n)%Q.
Proof. apply Qpower_0_lt. reflexivity. Qed.

Lemma tolerance_inv (n : Z) : (tolerance n == / (10 # 1) ^ n)%Q.
Proof. unfold tolerance. apply Qpower_opp. Qed.

Lemma round_half_even_floor (x : Q) : (Qfloor x <= round_half_even x)%Z.
Proof.
  unfold round_half_even.
  destruct (Qcompare _ _); [destruct (Z.even _)| |]; lia.
Qed.

Lemma py_round_ge_tolerance (m : Q) (n : Z) :
  (tolerance n <= m)%Q -> (tolerance n <= py_round m n)%Q.
Proof.
  intros H. pose proof (pow10_pos n) as Hp.
  assert (Hscaled : (1 <= m * (10 # 1) ^ n)%Q).
  { rewrite tolerance_inv in H.
    apply (Qmult_le_r _ _ ((10 # 1) ^ n)%Q Hp) in H.
    rewrite Qmult_comm, Qmult_inv_r in H; [exact H|].
    intro E. rewrite E in Hp. discriminate. }
  assert (Hk : (1 <= round_half_even (m * (10 # 1) ^ n))%Z).
  { pose proof (Qfloor_resp_le _ _ Hscaled) as Hf.
    change (Qfloor 1) with 1%Z in Hf.
    pose proof (round_half_even_floor (m * (10 # 1) ^ n)). lia. }
  unfold py_round. rewrite tolerance_inv.
  apply Qle_shift_div_l; [exact Hp|].
  rewrite Qmult_comm, Qmult_inv_r.
  - change 1%Q with (inject_Z 1). rewrite <- Zle_Qle. exact Hk.
  - intro E. rewrite E in Hp. discriminate.
Qed.

Section FinalChecks.
Variable ureg : Registry.
Variable self : UnitHandling.t.

(** C7 (as amended): for an input that reaches the final checks with a dimensionless
    combined unit of magnitude [m], [getUnitMultiplier] fails with the tolerance
    error when [m < 10^(-digits)] and otherwise returns [m] rounded to [digits]
    decimal digits; a returned multiplier is never below [10^(-digits)]. *)
Theorem tolerance_check (s : string) (q : Quantity) :
  dict_mem s (baseUnits self) = false ->
  resolve ureg self s = Ok (CQuantity q) ->
  unitless (to_base_units ureg q) = true ->
  let m := magnitude (to_base_units ureg q) in
  let digits := roundingDecimalPoints self in
  ((m < tolerance digits)%Q ->
     getUnitMultiplier ureg self (Str s) = Raise ToleranceError)
  /\ (~ (m < tolerance digits)%Q ->
        getUnitMultiplier ureg self (Str s) = Ok (py_round m digits)
        /\ (tolerance digits <= py_round m digits)%Q).
Proof.
  intros Hb Hr Hu m digits.
  unfold getUnitMultiplier. rewrite Hb, Hr. cbn [bind finalise].
  rewrite Hu. cbn [assert bind].
  fold m. fold digits.
  destruct (Qle_bool (tolerance digits) m) eqn:Hle.
  - apply Qle_bool_iff in Hle. split.
    + intros Hlt. exfalso. apply (Qlt_not_le _ _ Hlt Hle).
    + intros _. split; [reflexivity|]. apply py_round_ge_tolerance. exact Hle.
  - split.
    + reflexivity.
    + intros Hn. exfalso. apply Hn. apply Qnot_le_lt. intro Hle'.
      apply Qle_bool_iff in Hle'. congruence.
Qed.

End FinalChecks.

Lemma tolerance_check_witness :
  let kg := qmul (mkQuantity 1 [("kilogram", 1)]) (qpow (mkQuantity 1 [("ton", 1)]) (-1)) in
  let ng := qmul (mkQuantity 1 [("nanogram", 1)]) (qpow (mkQuantity 1 [("ton", 1)]) (-1)) in
  let self := energy_engine 6 in
  ((magnitude (to_base_units Vocabulary.ureg ng) < tolerance 6)%Q
   /\ getUnitMultiplier Vocabulary.ureg self (Str "ng") = Raise ToleranceError)
  /\ (~ (magnitude (to_base_units Vocabulary.ureg kg) < tolerance 6)%Q
      /\ getUnitMultiplier Vocabulary.ureg self (Str "kg")
         = Ok (py_round (magnitude (to_base_units Vocabulary.ureg kg)) 6)
      /\ (tolerance 6 <= py_round (magnitude (to_base_units Vocabulary.ureg kg)) 6)%Q).
Proof.
  intros kg ng self. split.
  - assert (Hlt : (magnitude (to_base_units Vocabulary.ureg ng) < tolerance 6)%Q)
      by (vm_compute; reflexivity).
    split; [exact Hlt|].
    refine (proj1 (tolerance_check Vocabulary.ureg self "ng" ng _ _ _) Hlt).
    + vm_compute. reflexivity.
    + vm_compute. reflexivity.
    + vm_compute. reflexivity.
  - assert (Hge : ~ (magnitude (to_base_units Vocabulary.ureg kg) < tolerance 6)%Q)
      by (intro H; vm_compute in H; discriminate).
    split; [exact Hge|].
    refine (proj2 (tolerance_check Vocabulary.ureg self "kg" kg _ _ _) Hge).
    + vm_compute. reflexivity.
    + vm_compute. reflexivity.
    + vm_compute. reflexivity.
Defined.

(** C7 fails as stated for an input whose combined unit keeps a root unit: the
    check for a unitless combined unit comes first.  With two digits the radian
    (magnitude 1, not below the tolerance) is not returned, and the milliradian
    (magnitude 0.001, below the tolerance) does not raise the tolerance error:
    both fail with the internal-consistency error. *)
Lemma root_unit_fails_before_tolerance :
  exists c1 c2,
    resolve FurtherExamples.milli_angle_ureg (energy_engine 2) "rad" = Ok (CQuantity c1)
    /\ ~ (magnitude (to_base_units FurtherExamples.milli_angle_ureg c1) < tolerance 2)%Q
    /\ getUnitMultiplier FurtherExamples.milli_angle_ureg (energy_engine 2) (Str "rad")
       = Raise InternalConsistencyError
    /\ resolve FurtherExamples.milli_angle_ureg (energy_engine 2) "mrad" = Ok (CQuantity c2)
    /\ (magnitude (to_base_units FurtherExamples.milli_angle_ureg c2) < tolerance 2)%Q
    /\ getUnitMultiplier FurtherExamples.milli_angle_ureg (energy_engine 2) (Str "mrad")
       = Raise InternalConsistencyError.
Proof.
  do 2 eexists.
  split; [vm_compute; reflexivity|].
  split; [intro H; vm_compute in H; discriminate|].
  split; [vm_compute; reflexivity|].
  split; [vm_compute; reflexivity|].
  split; vm_compute; reflexivity.
Qed.

(** ** Direct and inverse match with a base unit *)

Section DirectMatch.
Variable ureg : Registry.
Variable self : UnitHandling.t.

Lemma resolve_after_guards (s : string) (q : Quantity) :
  passes_guards ureg self s q ->
  resolve ureg self s = combine_units ureg self (dimVector_of ureg self q) s.
Proof.
  intros (_ & Hp & Hin & Hmiss).
  unfold resolve, checkIfInvalidHourString, ureg_call.
  rewrite Hp. cbn [bind]. rewrite Hin. cbn [negb assert bind].
  rewrite Hmiss. reflexivity.
Qed.

Lemma multiplier_after_resolve (s : string) (c : Quantity) :
  dict_mem s (baseUnits self) = false ->
  resolve ureg self s = Ok (CQuantity c) ->
  unitless (to_base_units ureg c) = true ->
  (tolerance (roundingDecimalPoints self) <= magnitude (to_base_units ureg c))%Q ->
  getUnitMultiplier ureg self (Str s)
  = Ok (py_round (magnitude (to_base_units ureg c)) (roundingDecimalPoints self)).
Proof.
  intros Hb Hr Hu Ht.
  unfold getUnitMultiplier. rewrite Hb, Hr. cbn [bind finalise].
  rewrite Hu. cbn [assert bind].
  apply Qle_bool_iff in Ht. rewrite Ht. reflexivity.
Qed.

(** C6 (as amended): for a string that passes the guards, if [b] is the first
    base unit whose column equals the vector of the input's dimensionality, the
    combined unit is (input unit) x b^(-1); if no column equals it and [b] is
    the first whose negated column does, the combined unit is (input unit) x b.
    The multiplier returned is the magnitude of the combined unit in root units
    rounded to the configured digits, once the combined unit is found
    dimensionless and its magnitude is not below the tolerance. *)
Theorem direct_or_inverse_match (s b : string) (q qb : Quantity) (others : list string) :
  passes_guards ureg self s q ->
  parse ureg b = Some qb ->
  let inputUnit := mkQuantity 1 (units q) in
  let returned (c : Quantity) :=
    resolve ureg self s = Ok (CQuantity c)
    /\ (unitless (to_base_units ureg c) = true ->
        (tolerance (roundingDecimalPoints self) <= magnitude (to_base_units ureg c))%Q ->
        getUnitMultiplier ureg self (Str s)
        = Ok (py_round (magnitude (to_base_units ureg c)) (roundingDecimalPoints self))) in
  (matching_columns 1 (dimMatrix self) (dimVector_of ureg self q) = b :: others ->
     returned (qmul inputUnit (qpow qb (-1))))
  /\ (matching_columns 1 (dimMatrix self) (dimVector_of ureg self q) = [] ->
      matching_columns (-1) (dimMatrix self) (dimVector_of ureg self q) = b :: others ->
      returned (qmul inputUnit qb)).
Proof.
  intros Hg Hb inputUnit returned.
  pose proof (resolve_after_guards s q Hg) as Hres.
  destruct Hg as (Hnb & Hp & _ & _).
  unfold combine_units, ureg_call in Hres. rewrite Hp in Hres. cbn [bind] in Hres.
  split.
  - intros Hm. rewrite Hm, Hb in Hres. cbn [bind cmul as_quantity] in Hres.
    split; [exact Hres|]. intros Hu Ht.
    apply multiplier_after_resolve; assumption.
  - intros Hm1 Hm2. rewrite Hm1, Hm2, Hb in Hres. cbn [bind cmul as_quantity] in Hres.
    split; [exact Hres|]. intros Hu Ht.
    apply multiplier_after_resolve; assumption.
Qed.

End DirectMatch.

Lemma direct_or_inverse_match_witness :
  let self := energy_engine 6 in
  let c := qmul (mkQuantity 1 [("kilogram", 1)]) (qpow (mkQuantity 1 [("ton", 1)]) (-1)) in
  resolve Vocabulary.ureg self "kg" = Ok (CQuantity c)
  /\ getUnitMultiplier Vocabulary.ureg self (Str "kg")
     = Ok (py_round (magnitude (to_base_units Vocabulary.ureg c)) 6).
Proof.
  pose proof (direct_or_inverse_match Vocabulary.ureg (energy_engine 6) "kg" "ton"
                (mkQuantity 1 [("kilogram", 1)]) (mkQuantity 1 [("ton", 1)]) []) as H.
  assert (Hg : passes_guards Vocabulary.ureg (energy_engine 6) "kg"
                 (mkQuantity 1 [("kilogram", 1)])).
  { repeat split; vm_compute; reflexivity. }
  specialize (H Hg eq_refl). cbv zeta in H. destruct H as [H _].
  assert (Hm : matching_columns 1 (dimMatrix (energy_engine 6))
                 (dimVector_of Vocabulary.ureg (energy_engine 6)
                    (mkQuantity 1 [("kilogram", 1)])) = ["ton"]).
  { vm_compute. reflexivity. }
  destruct (H Hm) as [Hr Hret]. split; [exact Hr|].
  apply Hret.
  - vm_compute. reflexivity.
  - vm_compute. discriminate.
Defined.

(** C6 fails as stated in its last clause: what is returned is not the
    magnitude of the combined unit but that magnitude rounded.  In the system
    based on the kilogram with two digits, the pound matches the column of "kg",
    the combined unit lb x kg^(-1) has magnitude 0.45359237, and 0.45 is
    returned. *)
Lemma returned_multiplier_is_rounded :
  let self := kg_engine 2 in
  let c := qmul (mkQuantity 1 [("pound", 1)]) (qpow (mkQuantity 1 [("kilogram", 1)]) (-1)) in
  getBaseUnits Vocabulary.ureg kg_system 2 = Ok (self, [])
  /\ resolve Vocabulary.ureg self "lb" = Ok (CQuantity c)
  /\ (magnitude (to_base_units Vocabulary.ureg c) == 45359237 # 100000000)%Q
  /\ exists r, getUnitMultiplier Vocabulary.ureg self (Str "lb") = Ok r
               /\ (r == 45 # 100)%Q
               /\ ~ (r == magnitude (to_base_units Vocabulary.ureg c))%Q.
Proof.
  cbv zeta. split; [vm_compute; reflexivity|].
  split; [vm_compute; reflexivity|].
  split; [vm_compute; reflexivity|].
  eexists. split; [vm_compute; reflexivity|].
  split; [vm_compute; reflexivity|].
  intro H. vm_compute in H. discriminate.
Qed.

(** ** The exact linear solve *)

Lemma Qprod_app (l1 l2 : list Q) : (Qprod (l1 ++ l2) == Qprod l1 * Qprod l2)%Q.
Proof.
  unfold Qprod. induction l1 as [|a l1 IH]; simpl.
  - symmetry. apply Qmult_1_l.
  - rewrite IH. apply Qmult_assoc.
Qed.

Lemma Qprod_power (l : list Q) (p : Z) :
  (Qprod (map (fun a => a ^ p) l) == Qprod l ^ p)%Q.
Proof.
  unfold Qprod. induction l as [|a l IH]; simpl.
  - symmetry. apply Qpower_1.
  - rewrite IH. symmetry. apply Qmult_power.
Qed.

Lemma round_half_even_comp (a b : Q) : (a == b)%Q -> round_half_even a = round_half_even b.
Proof.
  intros E. unfold round_half_even.
  rewrite (Qfloor_comp _ _ E).
  assert (Ed : (a - inject_Z (Qfloor b) == b - inject_Z (Qfloor b))%Q) by (rewrite E; reflexivity).
  rewrite (Qcompare_comp _ _ Ed _ _ (Qeq_refl (1 # 2))). reflexivity.
Qed.


Section Magnitudes.
Variable ureg : Registry.

Lemma external_magnitude_mul (a b : Quantity) :
  (external_magnitude ureg (qmul a b)
   == external_magnitude ureg a * external_magnitude ureg b)%Q.
Proof.
  unfold external_magnitude, to_base_units, qmul, root_factor. cbn [magnitude units].
  rewrite map_app, Qprod_app. ring.
Qed.

Lemma root_factor_pow (c : UnitsContainer) (p : Z) :
  (root_factor ureg (map (fun kv => (fst kv, (snd kv * p)%Z)) c) == root_factor ureg c ^ p)%Q.
Proof.
  unfold root_factor. rewrite map_map. cbn [fst snd].
  rewrite <- Qprod_power. rewrite map_map.
  induction c as [|[k e] c IH]; cbn [map Qprod fold_right fst snd].
  - reflexivity.
  - unfold Qprod in IH. rewrite IH. rewrite Qpower_mult. reflexivity.
Qed.

Lemma external_magnitude_pow (a : Quantity) (p : Z) :
  (external_magnitude ureg (qpow a p) == external_magnitude ureg a ^ p)%Q.
Proof.
  unfold external_magnitude, to_base_units, qpow. cbn [magnitude units].
  rewrite root_factor_pow. symmetry. apply Qmult_power.
Qed.

End Magnitudes.

Lemma posNegBooleanEntry_cases (x : Q) :
  posNegBooleanEntry x = true -> (x == -1 \/ x == 0 \/ x == 1)%Q.
Proof.
  unfold posNegBooleanEntry, is_zero, Qeqb. intros H.
  destruct (Qeq_bool (Qabs x) 0) eqn:Hz; apply Qeq_bool_iff in H.
  - right; left. revert H. apply Qabs_case; intros Hs E.
    + exact E.
    + rewrite <- (Qopp_involutive x), E. reflexivity.
  - revert H. apply Qabs_case; intros Hs E.
    + right; right. exact E.
    + left. rewrite <- (Qopp_involutive x), E. reflexivity.
Qed.









Section LinearSolve.
Variable ureg : Registry.
Variable self : UnitHandling.t.



End LinearSolve.


(** ** Duplicate base units *)

Lemma eq_col_refl (v : list Z) : eq_col v v = true.
Proof.
  unfold eq_col. rewrite Nat.eqb_refl. cbn [andb].
  induction v as [|a v IH]; cbn; [reflexivity|].
  now rewrite Z.eqb_refl, IH.
Qed.

Lemma duplicated_from_app (l1 l2 : list (string * list Z)) :
  forall seen,
  duplicated_from seen (l1 ++ l2)
  = duplicated_from seen l1 ++ duplicated_from (seen ++ map snd l1) l2.
Proof.
  induction l1 as [|[l v] l1 IH]; intros seen; cbn.
  - now rewrite app_nil_r.
  - rewrite IH. now rewrite <- app_assoc.
Qed.


Lemma duplicated_from_same_members (cs : list (string * list Z)) :
  forall s1 s2, same_members s1 s2 -> duplicated_from s1 cs = duplicated_from s2 cs.
Proof.
  induction cs as [|[l v] cs IH]; intros s1 s2 H; cbn; [reflexivity|].
  rewrite (H v). f_equal. apply IH.
  intros w. rewrite !existsb_app. now rewrite (H w).
Qed.

Lemma same_members_repeat (seen : list (list Z)) (v : list Z) :
  In v seen -> same_members seen (seen ++ [v]).
Proof.
  intros Hin w. rewrite existsb_app. cbn [existsb]. rewrite orb_false_r.
  destruct (eq_col w v) eqn:E.
  - rewrite orb_true_r. apply existsb_exists. now exists v.
  - now rewrite orb_false_r.
Qed.

Lemma filter_label_absent (s : string) (cs : list (string * list Z)) :
  ~ In s (map fst cs) ->
  filter (fun c => String.eqb (fst c) s) cs = []
  /\ filter (fun c => negb (inb (fst c) [s])) cs = cs.
Proof.
  induction cs as [|[l v] cs IH]; intros Hs; [split; reflexivity|].
  cbn in Hs. assert (Hl : l <> s) by tauto.
  assert (Hrest : ~ In s (map fst cs)) by tauto.
  destruct (IH Hrest) as [E1 E2].
  apply String.eqb_neq in Hl.
  assert (Hinb : inb l [s] = false) by (unfold inb; cbn; now rewrite Hl).
  cbn [filter fst]. rewrite Hl, Hinb. cbn [negb]. now rewrite E1, E2.
Qed.


Lemma filter_unmarked (l : list (string * bool)) :
  forallb (fun m => negb (snd m)) l = true -> filter snd l = [].
Proof.
  induction l as [|[d b] l IH]; cbn; [reflexivity|].
  intros H. apply andb_prop in H. destruct H as [Hb Hl].
  destruct b; [discriminate|]. now apply IH.
Qed.






(** ** The check on the dependency vectors *)

Lemma posNegBooleanEntry_complete (x : Q) :
  (x == -1 \/ x == 0 \/ x == 1)%Q -> posNegBooleanEntry x = true.
Proof.
  unfold posNegBooleanEntry, is_zero, Qeqb. intros H.
  destruct (Qeq_bool (Qabs x) 0) eqn:Hz; [exact Hz|].
  apply Qeq_bool_iff. destruct H as [E|[E|E]]; rewrite E; try reflexivity.
  exfalso. assert (Ht : Qeq_bool (Qabs x) 0 = true).
  { apply Qeq_bool_iff. rewrite E. reflexivity. }
  congruence.
Qed.

Lemma posNegBooleanRow_iff (r : row) :
  posNegBooleanRow r = true <-> purely_pos_neg_boolean r.
Proof.
  unfold posNegBooleanRow, purely_pos_neg_boolean.
  rewrite forallb_forall, Forall_forall. split; intros H x Hx.
  - apply posNegBooleanEntry_cases. now apply H.
  - apply posNegBooleanEntry_complete. now apply H.
Qed.

Lemma take_rows_error (rows : list nat) (A : matrix) (e : Error) :
  take_rows rows A = Raise e -> e = ShapeError.
Proof.
  induction rows as [|i rows IH]; cbn; [discriminate|].
  destruct (nth_error A i); [|now inversion 1].
  destruct (take_rows rows A); cbn; [discriminate|].
  intros H. apply IH. exact H.
Qed.

Lemma dependency_rows_error (n : nat) (df : DataFrame) (M I_ : matrix)
  (pivot : list nat) (e : Error) :
  dependency_rows n df M I_ pivot = Raise e ->
  e = ShapeError \/ e = AmbiguousDependencyOrderError.
Proof.
  unfold dependency_rows, assert.
  repeat match goal with
         | |- context [if ?c then _ else _] => destruct c; cbn [bind]
         | |- context [match ?l with [] => _ | _ :: _ => _ end] => destruct l; cbn [bind]
         | |- Raise _ = Raise _ -> _ => inversion 1; auto
         | |- Ok _ = Raise _ -> _ => discriminate
         end.
  all: try (destruct (take_rows _ _) eqn:Et; cbn [bind];
            [discriminate| inversion 1; subst; left; eapply take_rows_error; eassumption]).
Qed.

Lemma dependency_record_error (n : nat) (df : DataFrame) (e : Error) :
  dependency_record n df = Raise e ->
  e = ShapeError \/ e = AmbiguousDependencyOrderError.
Proof.
  unfold dependency_record, column_echelon_form.
  destruct (Np.transpose (to_array df)); cbn [bind].
  - inversion 1. now left.
  - apply dependency_rows_error.
Qed.

(** The dependency analysis fails with the constructible base-unit error
    exactly when the dependency vectors are obtained and one of them, read over
    all base units, consists of -1, 0 and 1 only; when they are obtained and
    none does, the analysis completes with them. *)
Theorem constructible_check (n : nat) (df : DataFrame) :
  (analyse n df = Raise ConstructibleBaseUnitError
   <-> exists da, dependency_record n df = Ok da
                  /\ exists r, In r (dependentDims da) /\ purely_pos_neg_boolean r)
  /\ (forall da, dependency_record n df = Ok da ->
                 dependentDims da <> [] ->
                 ~ (exists r, In r (dependentDims da) /\ purely_pos_neg_boolean r) ->
                 analyse n df = Ok da).
Proof.
  unfold analyse. split; [split|].
  - destruct (dependency_record n df) as [da|e] eqn:Hrec; cbn [bind].
    + intros H. exists da. split; [reflexivity|].
      unfold check_constructible, checkIfPosNegBoolean_axis in H.
      destruct (dependentDims da) as [|r0 rs] eqn:Hd; cbn [bind] in H; [discriminate|].
      destruct (existsb posNegBooleanRow (r0 :: rs)) eqn:Hex; cbn in H; [|discriminate].
      apply existsb_exists in Hex. destruct Hex as (r & Hin & Hr).
      exists r. split; [exact Hin|]. now apply posNegBooleanRow_iff.
    + intros H. inversion H; subst e.
      destruct (dependency_record_error n df _ Hrec); discriminate.
  - intros (da & Hrec & r & Hin & Hr). rewrite Hrec. cbn [bind].
    unfold check_constructible, checkIfPosNegBoolean_axis.
    destruct (dependentDims da) as [|r0 rs] eqn:Hd; [contradiction|]. cbn [bind].
    assert (Hex : existsb posNegBooleanRow (r0 :: rs) = true).
    { apply existsb_exists. exists r. split; [exact Hin|]. now apply posNegBooleanRow_iff. }
    rewrite Hex. reflexivity.
  - intros da Hrec Hne Hnone. rewrite Hrec. cbn [bind].
    unfold check_constructible, checkIfPosNegBoolean_axis.
    destruct (dependentDims da) as [|r0 rs] eqn:Hd; [contradiction|]. cbn [bind].
    destruct (existsb posNegBooleanRow (r0 :: rs)) eqn:Hex; [|reflexivity].
    exfalso. apply Hnone. apply existsb_exists in Hex. destruct Hex as (r & Hin & Hr).
    exists r. split; [exact Hin|]. now apply posNegBooleanRow_iff.
Qed.

Lemma constructible_check_witness :
  analyse 3 (mkDataFrame ["[mass]"; "[length]"; "[time]"]
               [("GW", [1; 2; -3]); ("hour", [0; 0; 1]); ("GWh", [1; 2; -2])])
  = Raise ConstructibleBaseUnitError.
Proof.
  apply (proj1 (constructible_check 3 _)).
  eexists. split.
  - vm_compute. reflexivity.
  - exists [(-1)%Q; (-1)%Q; 1%Q]. split.
    + cbn. left. reflexivity.
    + apply posNegBooleanRow_iff. vm_compute. reflexivity.
Defined.

(** C3, evaluated on the system of speed, mass, length and time.  The hour is
    the kilometer divided by the kilometer per hour: the echelon form has one
    zero row, and its row of the transform, (1, 0, -1, 1), consists of -1, 0
    and 1 only.  But the list [swapped] is [0; 2; 2], so two indices are taken
    for dependent units where there is one vector, the selection of their
    columns raises, and the assertion on constructible base units is never
    reached.  With the ton declared last the same units raise the constructible
    base-unit error. *)
Lemma constructible_unit_is_not_reported :
  check_duplicates
    (fst (build_dimMatrix (map (fun s => (s, dimensionality_of Vocabulary.ureg s))
                               FurtherExamples.speed_system)))
    (snd (build_dimMatrix (map (fun s => (s, dimensionality_of Vocabulary.ureg s))
                               FurtherExamples.speed_system)))
  = Ok (FurtherExamples.speed_frame, [])
  /\ (exists M I_,
        column_echelon_form (to_array FurtherExamples.speed_frame) = Ok (M, I_, [0; 2; 2]%nat)
        /\ zero_rows M = [3%nat]
        /\ nth 3 I_ [] = [1%Q; 0%Q; (-1)%Q; 1%Q]
        /\ posNegBooleanRow (nth 3 I_ []) = true)
  /\ not_in_pivot 4 [0; 2; 2]%nat = [1; 3]%nat
  /\ getBaseUnits Vocabulary.ureg FurtherExamples.speed_system 6 = Raise ShapeError
  /\ getBaseUnits Vocabulary.ureg FurtherExamples.speed_system_reordered 6
     = Raise ConstructibleBaseUnitError.
Proof.
  split; [vm_compute; reflexivity|].
  split; [do 2 eexists; repeat split; vm_compute; reflexivity|].
  repeat split; vm_compute; reflexivity.
Qed.

(** ** The order of the dependency vectors *)

(** C4, evaluated on the system of powers of length: construction completes
    with three dependent units whose vectors form a cycle; the reordering takes
    the column indices of the ones as row indices and leaves the first vector
    with 0, not 1, at the column of the first dependent unit. *)
Lemma reordering_misses_cycle :
  getBaseUnits Vocabulary.ureg powers_system 6 = Ok (powers_engine, [])
  /\ column_labels (dimMatrix powers_engine) = ["m"; "hectare"; "liter"; "m**4"; "s"; "kg"]
  /\ dependentUnits (dimAnalysis powers_engine) = ["hectare"; "liter"; "m**4"]
  /\ dependentDims (dimAnalysis powers_engine)
     = [[(-3)%Q; 0%Q; 1%Q; 0%Q; 0%Q; 0%Q];
        [(-4)%Q; 0%Q; 0%Q; 1%Q; 0%Q; 0%Q];
        [(-2)%Q; 1%Q; 0%Q; 0%Q; 0%Q; 0%Q]]
  /\ own_entry powers_engine 0 = Some 0%Q
  /\ own_entries_are_one powers_engine = false.
Proof. repeat split; vm_compute; reflexivity. Qed.

(** * Further properties of the class *)

Import FurtherExamples.

(** ** Errors of the resolution *)

Section ResolutionErrors.
Variable ureg : Registry.
Variable self : UnitHandling.t.

(** X1: a string that is not a base unit, parses and passes the guard, but
    whose dimensionality names a dimension that no base unit has, is rejected
    with the missing-dimension error listing exactly those dimensions; no
    matching or solving takes place. *)
Theorem missing_dimension_is_reported (s : string) (q : Quantity) :
  dict_mem s (baseUnits self) = false ->
  parse ureg s = Some q ->
  inb "planck_constant" (map fst (units q)) = false ->
  let missing := filter (fun k => negb (inb k (index (dimMatrix self))))
                        (keys (get_dimensionality ureg q)) in
  missing <> [] ->
  getUnitMultiplier ureg self (Str s) = Raise (MissingDimensionError missing).
Proof.
  intros Hb Hp Hin missing Hm.
  unfold getUnitMultiplier. rewrite Hb.
  unfold resolve, checkIfInvalidHourString, ureg_call.
  rewrite Hp. cbn [bind]. rewrite Hin. cbn [negb assert bind].
  fold missing. destruct missing as [|k ks]; [contradiction|]. reflexivity.
Qed.

Lemma fallback_without_large_power (dimVector : list Z) (x : row) :
  Forall (fun xi => (Qabs xi <= 1)%Q) x ->
  forall (c : Combined) (us : list string),
  fallback ureg self dimVector c (combine us x) = Ok None.
Proof.
  intros Hsmall c. induction Hsmall as [|xi xs Hxi _ IH]; intros us.
  - destruct us; reflexivity.
  - destruct us as [|u us]; [reflexivity|]. cbn [combine fallback].
    unfold Qgtb. apply Qle_bool_iff in Hxi. rewrite Hxi. cbn [negb]. apply IH.
Qed.

(** X3: when neither a direct nor an inverse match exists and the solution of
    the linear system is not in {-1,0,1} but has no component of absolute value
    above 1 (a fractional exponent), no substitution is tried and the call
    fails with the unresolved-conversion error. *)
Theorem fractional_solution_is_unresolved (s : string) (q : Quantity) (x : row) :
  passes_guards ureg self s q ->
  matching_columns 1 (dimMatrix self) (dimVector_of ureg self q) = [] ->
  matching_columns (-1) (dimMatrix self) (dimVector_of ureg self q) = [] ->
  forallb (fun d => inb d (column_labels (dimMatrix self)))
          (dependentUnits (dimAnalysis self)) = true ->
  solve_frame (drop_columns (dependentUnits (dimAnalysis self)) (dimMatrix self))
              (dimVector_of ureg self q) = Ok x ->
  checkIfPosNegBoolean x = false ->
  Forall (fun xi => (Qabs xi <= 1)%Q) x ->
  getUnitMultiplier ureg self (Str s) = Raise UnresolvedConversionError.
Proof.
  intros Hg Hm1 Hm2 Hdep Hsolve Hbool Hsmall.
  pose proof (fallback_without_large_power (dimVector_of ureg self q) x Hsmall) as Hfb.
  unfold getUnitMultiplier.
  destruct Hg as (Hb & Hp & Hin & Hmiss). rewrite Hb.
  rewrite (resolve_after_guards ureg self s q (conj Hb (conj Hp (conj Hin Hmiss)))).
  unfold combine_units, ureg_call. rewrite Hp. cbn [bind].
  rewrite Hm1, Hm2, Hdep. cbn [assert bind].
  rewrite Hsolve. cbn [bind]. rewrite Hbool, Hfb. reflexivity.
Qed.

End ResolutionErrors.

Lemma missing_dimension_is_reported_witness :
  getUnitMultiplier Vocabulary.ureg powers_engine (Str "Euro")
  = Raise (MissingDimensionError ["[currency]"]).
Proof.
  apply (missing_dimension_is_reported Vocabulary.ureg powers_engine "Euro"
           (mkQuantity 1 [("Euro", 1)])).
  - vm_compute. reflexivity.
  - vm_compute. reflexivity.
  - vm_compute. reflexivity.
  - vm_compute. discriminate.
Defined.

Lemma fractional_solution_is_unresolved_witness :
  getUnitMultiplier Vocabulary.ureg area_engine (Str "m") = Raise UnresolvedConversionError.
Proof.
  apply (fractional_solution_is_unresolved Vocabulary.ureg area_engine "m"
           (mkQuantity 1 [("meter", 1)]) [0%Q; (1 # 2)%Q; 0%Q; 0%Q]).
  - repeat split; vm_compute; reflexivity.
  - vm_compute. reflexivity.
  - vm_compute. reflexivity.
  - vm_compute. reflexivity.
  - vm_compute. reflexivity.
  - vm_compute. reflexivity.
  - repeat constructor; vm_compute; discriminate.
Defined.

(** ** The substitution fallback *)

Section Fallback.
Variable ureg : Registry.
Variable self : UnitHandling.t.
Variable dimVector : list Z.

Lemma substitute_sound (c : Combined) (unit : string) (power : Q)
  (deps : list (string * row)) (c' : Combined) :
  substitute ureg self dimVector c unit power deps = Ok (Some c') ->
  exists (dependentUnit : string) (dependentDim : row) (idx : nat) (e : Q)
         (v : list Z) (sol : row),
    In (dependentUnit, dependentDim) deps
    /\ index_of unit (independentUnits self) = Some idx
    /\ nth_error dependentDim idx = Some e
    /\ (Qabs e == Qabs power)%Q
    /\ map snd (filter (fun col => String.eqb (fst col) dependentUnit)
                       (columns (dimMatrix self))) = [v]
    /\ solve_frame (substituted_frame self unit dependentUnit v) dimVector = Ok sol
    /\ checkIfPosNegBoolean sol = true
    /\ compose ureg c (combine (column_labels (substituted_frame self unit dependentUnit v)) sol)
       = Ok c'.
Proof.
  induction deps as [|[dependentUnit dependentDim] rest IH]; cbn [substitute].
  - discriminate.
  - fold (independentUnits self).
    destruct (index_of unit (independentUnits self)) as [idx|] eqn:Hidx; [|discriminate].
    destruct (nth_error dependentDim idx) as [e|] eqn:He; [|discriminate].
    assert (Hrest : substitute ureg self dimVector c unit power rest = Ok (Some c') ->
                    exists (dependentUnit0 : string) (dependentDim0 : row) (idx0 : nat)
                           (e0 : Q) (v : list Z) (sol : row),
                      In (dependentUnit0, dependentDim0) ((dependentUnit, dependentDim) :: rest)
                      /\ Some idx = Some idx0
                      /\ nth_error dependentDim0 idx0 = Some e0
                      /\ (Qabs e0 == Qabs power)%Q
                      /\ map snd (filter (fun col => String.eqb (fst col) dependentUnit0)
                                         (columns (dimMatrix self))) = [v]
                      /\ solve_frame (substituted_frame self unit dependentUnit0 v) dimVector
                         = Ok sol
                      /\ checkIfPosNegBoolean sol = true
                      /\ compose ureg c
                           (combine (column_labels (substituted_frame self unit dependentUnit0 v))
                                    sol) = Ok c').
    { intros H. destruct (IH H) as (du & dd & i & e' & v & sol & Hin & Hrest).
      exists du, dd, i, e', v, sol. split; [now right|exact Hrest]. }
    destruct (Qeqb (Qabs e) (Qabs power)) eqn:Habs; [|exact Hrest].
    destruct (filter (fun col => String.eqb (fst col) dependentUnit)
                     (columns (dimMatrix self))) as [|col [|col2 cols]] eqn:Hcol;
      try discriminate.
    fold (substituted_frame self unit dependentUnit (snd col)).
    destruct (solve_frame (substituted_frame self unit dependentUnit (snd col)) dimVector)
      as [sol|err] eqn:Hsol; cbn [bind]; [|discriminate].
    destruct (checkIfPosNegBoolean sol) eqn:Hbool; [|exact Hrest].
    destruct (compose ureg c _) as [c0|err] eqn:Hc; cbn [bind]; [|discriminate].
    intros H. inversion H; subst c0.
    exists dependentUnit, dependentDim, idx, e, (snd col), sol.
    split; [now left|]. split; [reflexivity|]. split; [exact He|].
    split; [now apply Qeq_bool_iff|]. split; [now rewrite Hcol|].
    split; [exact Hsol|]. split; [exact Hbool|exact Hc].
Qed.

(** X4: whenever the fallback produces a combined unit, it does so by exactly
    one substitution, for a solved power of absolute value above 1, of one
    independent unit by one dependent unit (as [one_substitution] spells out);
    it never combines several substitutions. *)
Theorem fallback_is_one_substitution (c : Combined) (ups : list (string * Q))
  (c' : Combined) :
  fallback ureg self dimVector c ups = Ok (Some c') ->
  exists (unit : string) (power : Q) (dependentUnit : string),
    In (unit, power) ups
    /\ (1 < Qabs power)%Q
    /\ one_substitution ureg self dimVector c unit power dependentUnit c'.
Proof.
  induction ups as [|[unit power] rest IH]; cbn [fallback].
  - discriminate.
  - assert (Hrest : fallback ureg self dimVector c rest = Ok (Some c') ->
                    exists (unit0 : string) (power0 : Q) (dependentUnit : string),
                      In (unit0, power0) ((unit, power) :: rest)
                      /\ (1 < Qabs power0)%Q
                      /\ one_substitution ureg self dimVector c unit0 power0 dependentUnit c').
    { intros H. destruct (IH H) as (u & p & du & Hin & Hrest).
      exists u, p, du. split; [now right|exact Hrest]. }
    destruct (Qgtb (Qabs power) 1) eqn:Hgt; [|exact Hrest].
    destruct (substitute ureg self dimVector c unit power _) as [[c0|]|err] eqn:Hs;
      cbn [bind]; try discriminate; [|exact Hrest].
    intros H. inversion H; subst c0.
    destruct (substitute_sound _ _ _ _ _ Hs)
      as (du & dd & i & e & v & sol & Hin & H1 & H2 & H3 & H4 & H5 & H6 & H7).
    exists unit, power, du. split; [now left|]. split.
    + unfold Qgtb in Hgt. apply negb_true_iff in Hgt.
      apply Qnot_le_lt. intro Hle. apply Qle_bool_iff in Hle. congruence.
    + exists dd, i, e, v, sol. repeat split; assumption.
Qed.

End Fallback.

Lemma fallback_is_one_substitution_witness :
  let dimVector := [1; 2; -3; 0] in
  let c := CUnit [("gigawatt", 1)] in
  let ups := combine ["ton"; "km"; "hour"; "Euro"] [1%Q; 2%Q; (-3)%Q; 0%Q] in
  exists (c' : Combined) (unit : string) (power : Q) (dependentUnit : string),
    fallback Vocabulary.ureg (energy_engine 6) dimVector c ups = Ok (Some c')
    /\ In (unit, power) ups
    /\ (1 < Qabs power)%Q
    /\ one_substitution Vocabulary.ureg (energy_engine 6) dimVector c unit power
         dependentUnit c'.
Proof.
  cbv zeta.
  assert (Hr : fallback Vocabulary.ureg (energy_engine 6) [1; 2; -3; 0]
                 (CUnit [("gigawatt", 1)])
                 (combine ["ton"; "km"; "hour"; "Euro"] [1%Q; 2%Q; (-3)%Q; 0%Q])
               = Ok (Some (CQuantity
                             (mkQuantity 1 [("gigawatt", 1); ("ton", 0); ("hour", 1);
                                            ("Euro", 0); ("gigawatt_hour", -1)])))).
  { vm_compute. reflexivity. }
  destruct (fallback_is_one_substitution _ _ _ _ _ _ Hr) as (u & p & du & H).
  exists (CQuantity (mkQuantity 1 [("gigawatt", 1); ("ton", 0); ("hour", 1);
                                   ("Euro", 0); ("gigawatt_hour", -1)])), u, p, du.
  split; [exact Hr|exact H].
Defined.

(** ** The test for -1, 0 and 1 *)

(** X2: [checkIfPosNegBoolean] on a vector holds exactly when every entry is
    -1, 0 or 1; along the rows it raises on an array without rows and otherwise
    holds exactly when some row consists of such entries only. *)
Theorem checkIfPosNegBoolean_characterised (array : row) (rows : matrix) :
  (checkIfPosNegBoolean array = true <-> purely_pos_neg_boolean array)
  /\ checkIfPosNegBoolean_axis [] = Raise ShapeError
  /\ (rows <> [] ->
      exists b, checkIfPosNegBoolean_axis rows = Ok b
                /\ (b = true <-> exists r, In r rows /\ purely_pos_neg_boolean r)).
Proof.
  split; [|split].
  - unfold checkIfPosNegBoolean. apply posNegBooleanRow_iff.
  - reflexivity.
  - intros Hne. destruct rows as [|r0 rs]; [contradiction|].
    exists (existsb posNegBooleanRow (r0 :: rs)). split; [reflexivity|].
    rewrite existsb_exists. split; intros (r & Hin & Hr); exists r; split; try assumption;
      now apply posNegBooleanRow_iff.
Qed.

Lemma checkIfPosNegBoolean_characterised_witness :
  exists b, checkIfPosNegBoolean_axis [[1%Q; (-2)%Q]; [0%Q; (-1)%Q]] = Ok b
            /\ (b = true <-> exists r, In r [[1%Q; (-2)%Q]; [0%Q; (-1)%Q]]
                                       /\ purely_pos_neg_boolean r).
Proof.
  apply (proj2 (proj2 (checkIfPosNegBoolean_characterised [] [[1%Q; (-2)%Q]; [0%Q; (-1)%Q]]))).
  discriminate.
Defined.

(** ** Accuracy of the rounded multiplier *)

Lemma Qfloor_fraction (x : Q) : (0 <= x - inject_Z (Qfloor x) < 1)%Q.
Proof.
  pose proof (Qfloor_le x) as Hl. pose proof (Qlt_floor x) as Hu.
  rewrite inject_Z_plus in Hu. change (inject_Z 1) with 1%Q in Hu.
  split; lra.
Qed.

Lemma round_half_even_close (x : Q) :
  (Qabs (inject_Z (round_half_even x) - x) <= 1 # 2)%Q.
Proof.
  pose proof (Qfloor_fraction x) as [H0 H1].
  apply Qabs_Qle_condition. unfold round_half_even.
  destruct (Qcompare (x - inject_Z (Qfloor x)) (1 # 2)) eqn:Hc.
  - apply Qeq_alt in Hc.
    destruct (Z.even (Qfloor x)).
    + split; lra.
    + rewrite inject_Z_plus. change (inject_Z 1) with 1%Q. split; lra.
  - apply Qlt_alt in Hc. split; lra.
  - apply Qgt_alt in Hc. rewrite inject_Z_plus. change (inject_Z 1) with 1%Q.
    split; lra.
Qed.

Lemma py_round_close (x : Q) (digits : Z) :
  (Qabs (py_round x digits - x) <= (1 # 2) * tolerance digits)%Q.
Proof.
  pose proof (pow10_pos digits) as Hp.
  pose proof (round_half_even_close (x * (10 # 1) ^ digits)) as Hk.
  apply Qabs_Qle_condition in Hk. destruct Hk as [Hk1 Hk2].
  assert (Hne : ~ ((10 # 1) ^ digits == 0)%Q) by (intro E; rewrite E in Hp; discriminate).
  assert (Ht : (0 < / (10 # 1) ^ digits)%Q) by (apply Qinv_lt_0_compat; exact Hp).
  assert (Ex : (py_round x digits - x
                == (inject_Z (round_half_even (x * (10 # 1) ^ digits))
                    - x * (10 # 1) ^ digits) * / (10 # 1) ^ digits)%Q).
  { unfold py_round. field. exact Hne. }
  rewrite Ex, tolerance_inv.
  apply Qabs_Qle_condition.
  set (t := (/ (10 # 1) ^ digits)%Q) in *.
  set (d := (inject_Z (round_half_even (x * (10 # 1) ^ digits))
             - x * (10 # 1) ^ digits)%Q) in *.
  split.
  - setoid_replace (- ((1 # 2) * t))%Q with ((- (1 # 2)) * t)%Q by ring.
    apply Qmult_le_compat_r; [exact Hk1|]. apply Qlt_le_weak. exact Ht.
  - apply Qmult_le_compat_r; [exact Hk2|]. apply Qlt_le_weak. exact Ht.
Qed.

Section Accuracy.
Variable ureg : Registry.
Variable self : UnitHandling.t.

(** X5: a multiplier that is returned after the final checks is a whole number
    of units of the last kept digit, and it differs from the magnitude of the
    combined unit by at most half such a unit. *)
Theorem returned_multiplier_is_close (s : string) (q : Quantity) :
  dict_mem s (baseUnits self) = false ->
  resolve ureg self s = Ok (CQuantity q) ->
  unitless (to_base_units ureg q) = true ->
  let m := magnitude (to_base_units ureg q) in
  let digits := roundingDecimalPoints self in
  (tolerance digits <= m)%Q ->
  exists (r : Q) (k : Z),
    getUnitMultiplier ureg self (Str s) = Ok r
    /\ (r == inject_Z k * tolerance digits)%Q
    /\ (Qabs (r - m) <= (1 # 2) * tolerance digits)%Q.
Proof.
  intros Hb Hr Hu m digits Ht.
  exists (py_round m digits), (round_half_even (m * (10 # 1) ^ digits)).
  split; [|split].
  - apply multiplier_after_resolve; assumption.
  - unfold py_round. rewrite tolerance_inv. reflexivity.
  - apply py_round_close.
Qed.

End Accuracy.

Lemma returned_multiplier_is_close_witness :
  let q := qmul (mkQuantity 1 [("pound", 1)]) (qpow (mkQuantity 1 [("kilogram", 1)]) (-1)) in
  let m := magnitude (to_base_units Vocabulary.ureg q) in
  exists (r : Q) (k : Z),
    getUnitMultiplier Vocabulary.ureg (kg_engine 2) (Str "lb") = Ok r
    /\ (r == inject_Z k * tolerance 2)%Q
    /\ (Qabs (r - m) <= (1 # 2) * tolerance 2)%Q.
Proof.
  apply (returned_multiplier_is_close Vocabulary.ureg (kg_engine 2) "lb").
  - vm_compute. reflexivity.
  - vm_compute. reflexivity.
  - vm_compute. reflexivity.
  - vm_compute. discriminate.
Defined.

(** ** What a constructed instance holds *)

Lemma inb_In (s : string) (l : list string) : inb s l = true <-> In s l.
Proof.
  unfold inb. rewrite existsb_exists. split.
  - intros (x & Hin & E). apply String.eqb_eq in E. now subst.
  - intros H. exists s. split; [exact H|apply String.eqb_refl].
Qed.

Lemma dict_mem_set (k k' : string) (v : UnitsContainer) (d : list (string * UnitsContainer)) :
  dict_mem k' (dict_set k v d) = (String.eqb k' k || dict_mem k' d)%bool.
Proof.
  unfold dict_mem, inb. induction d as [|[k0 v0] d IH]; cbn.
  - reflexivity.
  - destruct (String.eqb k k0) eqn:E; cbn.
    + apply String.eqb_eq in E. subst k0.
      destruct (String.eqb k' k); reflexivity.
    + rewrite IH. destruct (String.eqb k' k0), (String.eqb k' k); reflexivity.
Qed.

Lemma dict_get_set (k k' : string) (v : UnitsContainer) (d : list (string * UnitsContainer)) :
  dict_get k' (dict_set k v d) = if String.eqb k' k then v else dict_get k' d.
Proof.
  induction d as [|[k0 v0] d IH]; cbn.
  - destruct (String.eqb k' k); reflexivity.
  - destruct (String.eqb k k0) eqn:E; cbn.
    + apply String.eqb_eq in E. subst k0. destruct (String.eqb k' k); reflexivity.
    + rewrite IH. destruct (String.eqb k' k0) eqn:E0; [|reflexivity].
      apply String.eqb_eq in E0. subst k0.
      rewrite String.eqb_sym in E. now rewrite E.
Qed.

Section Construction.
Variable ureg : Registry.

Lemma dimensionalities_ok (l : list string) (dims : list (string * UnitsContainer)) :
  dimensionalities ureg l = Ok dims ->
  dims = map (fun s => (s, dimensionality_of ureg s)) l
  /\ Forall (fun s => parse ureg s <> None) l.
Proof.
  revert dims. induction l as [|s l IH]; intros dims H; cbn in H.
  - inversion H. split; [reflexivity|constructor].
  - destruct (parse ureg s) as [q|] eqn:Hp; [|discriminate].
    destruct (dimensionalities ureg l) as [ds|e]; cbn in H; [|discriminate].
    inversion H; subst dims. destruct (IH ds eq_refl) as [E F]. split.
    + cbn [map]. unfold dimensionality_of at 1. rewrite Hp.
      f_equal. exact E.
    + constructor; [congruence|exact F].
Qed.

Lemma baseUnits_fold (l : list string) (acc : list (string * UnitsContainer)) (k : string) :
  let bu := fold_left (fun d sv => dict_set (fst sv) (snd sv) d)
                      (map (fun s => (s, dimensionality_of ureg s)) l) acc in
  dict_mem k bu = (inb k l || dict_mem k acc)%bool
  /\ ((forall k0, dict_mem k0 acc = true -> dict_get k0 acc = dimensionality_of ureg k0) ->
      dict_mem k bu = true -> dict_get k bu = dimensionality_of ureg k).
Proof.
  revert acc. induction l as [|s l IH]; intros acc; cbn [map fold_left fst snd].
  - split; [reflexivity|]. intros H. apply H.
  - cbv zeta in IH. destruct (IH (dict_set s (dimensionality_of ureg s) acc)) as [Hm Hg]. split.
    + rewrite Hm, dict_mem_set. unfold inb. cbn.
      destruct (String.eqb k s), (existsb (String.eqb k) l); reflexivity.
    + intros Hacc. apply Hg. intros k0. rewrite dict_mem_set, dict_get_set.
      destruct (String.eqb k0 s) eqn:E.
      * apply String.eqb_eq in E. now subst.
      * cbn. apply Hacc.
Qed.

(** What [getBaseUnits] returns, step by step. *)
Lemma getBaseUnits_ok (l : list string) (digits : Z) (self : UnitHandling.t)
  (warned : list string) :
  getBaseUnits ureg l digits = Ok (self, warned) ->
  let built := build_dimMatrix (map (fun s => (s, dimensionality_of ureg s)) l) in
  Forall (fun s => parse ureg s <> None) l
  /\ check_duplicates (fst built) (snd built) = Ok (dimMatrix self, warned)
  /\ analyse (length (fst built)) (dimMatrix self) = Ok (dimAnalysis self)
  /\ baseUnits self = fst built
  /\ roundingDecimalPoints self = digits.
Proof.
  unfold getBaseUnits. intros H.
  destruct (dimensionalities ureg l) as [dims|e] eqn:Hd; cbn [bind] in H; [|discriminate].
  destruct (dimensionalities_ok l dims Hd) as [E F]. subst dims.
  cbv zeta. destruct (build_dimMatrix _) as [bu df0]. cbn [fst snd].
  destruct (check_duplicates bu df0) as [[df w]|e] eqn:Hc; cbn [bind] in H; [|discriminate].
  destruct (analyse (length bu) df) as [da|e] eqn:Ha; cbn [bind] in H; [|discriminate].
  inversion H; subst. cbn. repeat split; assumption.
Qed.

End Construction.

Lemma drop_duplicates_from_incl (cs : list (string * list Z)) :
  forall seen c, In c (drop_duplicates_from seen cs) -> In c cs.
Proof.
  induction cs as [|[l v] cs IH]; intros seen c; cbn; [tauto|].
  destruct (existsb (eq_col v) seen).
  - intros H. right. now apply IH with seen.
  - intros [H|H]; [now left|]. right. now apply IH with (seen ++ [v]).
Qed.

Lemma drop_duplicate_units_incl (bu : list (string * UnitsContainer)) (dups : list string) :
  forall (df df' : DataFrame) (w w' : list string),
  drop_duplicate_units dups bu df w = Ok (df', w') ->
  index df' = index df /\ incl (columns df') (columns df).
Proof.
  induction dups as [|d rest IH]; intros df df' w w' H; cbn [drop_duplicate_units] in H.
  - inversion H; subst. split; [reflexivity|apply incl_refl].
  - destruct (filter (fun c => String.eqb (fst c) d) (columns df))
      as [|c1 [|c2 sel]] eqn:Hsel; try discriminate.
    destruct (drop_duplicates_from [] (c1 :: c2 :: sel)) as [|c [|c' cs]] eqn:Hdd;
      try discriminate.
    apply IH in H. cbn [index columns] in H. destruct H as [Hi Hc].
    split; [exact Hi|]. intros x Hx. apply Hc in Hx.
    apply in_app_or in Hx. destruct Hx as [Hx|[Hx|[]]].
    + unfold drop_columns in Hx. cbn [columns] in Hx. apply filter_In in Hx. tauto.
    + assert (Hin : In c (c1 :: c2 :: sel)).
      { apply drop_duplicates_from_incl with []. rewrite Hdd. now left. }
      rewrite <- Hsel in Hin. apply filter_In in Hin. destruct Hin as [Hin E].
      apply String.eqb_eq in E. subst x. rewrite <- E. now destruct c.
Qed.

Lemma dependency_rows_units (n : nat) (df : DataFrame) (M I_ : matrix) (pivot : list nat)
  (da : DimAnalysis) :
  dependency_rows n df M I_ pivot = Ok da ->
  Forall (fun u => In u (column_labels df)) (dependentUnits da).
Proof.
  unfold dependency_rows, assert.
  destruct (Nat.ltb 1 (length M) && Nat.ltb 1 (length (hd [] M)));
    cbn [bind]; [|discriminate].
  destruct (negb (Nat.eqb (length pivot) 1)); cbn [bind]; [|discriminate].
  destruct (forallb (fun j => Nat.ltb j (length (columns df))) (not_in_pivot n pivot))
    eqn:Hb; cbn [bind]; [|discriminate].
  match goal with
  | |- bind ?r _ = _ -> _ => destruct r as [dims0|e]; cbn [bind]; [|discriminate]
  end.
  match goal with
  | |- bind ?r _ = _ -> _ => destruct r as [dims1|e]; cbn [bind]; [|discriminate]
  end.
  intros H. inversion H; subst da. cbn [dependentUnits].
  apply Forall_forall. intros u Hu. apply in_map_iff in Hu. destruct Hu as (j & <- & Hj).
  rewrite forallb_forall in Hb. apply Hb in Hj. apply Nat.ltb_lt in Hj.
  apply nth_In. unfold column_labels. now rewrite length_map.
Qed.

Lemma analyse_ok (n : nat) (df : DataFrame) (da : DimAnalysis) :
  analyse n df = Ok da ->
  dependency_record n df = Ok da
  /\ dependentDims da <> []
  /\ existsb posNegBooleanRow (dependentDims da) = false.
Proof.
  unfold analyse. destruct (dependency_record n df) as [da0|e]; cbn [bind]; [|discriminate].
  unfold check_constructible, checkIfPosNegBoolean_axis.
  destruct (dependentDims da0) as [|r rs] eqn:Hd; cbn [bind]; [discriminate|].
  destruct (existsb posNegBooleanRow (r :: rs)) eqn:Hex; cbn; [discriminate|].
  intros H. inversion H; subst da0. rewrite Hd. repeat split; [discriminate|exact Hex].
Qed.

Section Constructed.
Variable ureg : Registry.
Variable listBaseUnits : list string.
Variable digits : Z.
Variable self : UnitHandling.t.
Variable warned : list string.
Hypothesis constructed : getBaseUnits ureg listBaseUnits digits = Ok (self, warned).

(** X7: after construction the keys of [baseUnits] are exactly the declared
    symbols, and the multiplier of every declared symbol is 1, with whatever
    registry [getUnitMultiplier] is then run. *)
Theorem declared_symbols_have_multiplier_one (s : string) (later : Registry) :
  (dict_mem s (baseUnits self) = true <-> In s listBaseUnits)
  /\ (In s listBaseUnits -> getUnitMultiplier later self (Str s) = Ok 1%Q).
Proof.
  destruct (getBaseUnits_ok ureg _ _ _ _ constructed) as (_ & _ & _ & Hbu & _).
  assert (Hmem : dict_mem s (baseUnits self) = inb s listBaseUnits).
  { rewrite Hbu. unfold build_dimMatrix. cbn [fst].
    destruct (baseUnits_fold ureg listBaseUnits [] s) as [Hm _]. cbv zeta in Hm.
    rewrite Hm. apply orb_false_r. }
  split.
  - rewrite Hmem. apply inb_In.
  - intros Hin. unfold getUnitMultiplier. rewrite Hmem.
    apply inb_In in Hin. now rewrite Hin.
Qed.

Lemma baseUnits_value (s : string) :
  In s listBaseUnits ->
  dict_get s (baseUnits self) = dimensionality_of ureg s.
Proof.
  intros Hin.
  destruct (getBaseUnits_ok ureg _ _ _ _ constructed) as (_ & _ & _ & Hbu & _).
  rewrite Hbu. unfold build_dimMatrix. cbn [fst].
  destruct (baseUnits_fold ureg listBaseUnits [] s) as [Hm Hg]. cbv zeta in Hm, Hg.
  apply Hg.
  - intros k0 H0. discriminate.
  - rewrite Hm. apply inb_In in Hin. now rewrite Hin.
Qed.

(** X8: after construction [baseUnits] maps every declared symbol to the
    dimensionality the registry gives it. *)
Theorem baseUnits_hold_dimensionalities (s : string) :
  In s listBaseUnits ->
  exists q, parse ureg s = Some q
            /\ dict_get s (baseUnits self) = get_dimensionality ureg q.
Proof.
  intros Hin.
  destruct (getBaseUnits_ok ureg _ _ _ _ constructed) as (Hparse & _ & _ & Hbu & _).
  rewrite Forall_forall in Hparse. specialize (Hparse s Hin).
  destruct (parse ureg s) as [q|] eqn:Hp; [|contradiction].
  exists q. split; [reflexivity|].
  rewrite (baseUnits_value s Hin). unfold dimensionality_of. now rewrite Hp.
Qed.

(** X10: after construction every column of [dimMatrix] belongs to a declared
    symbol and holds, dimension by dimension, the exponents of that symbol's
    entry in [baseUnits] (0 for a dimension the symbol does not have); the
    removal of duplicates never alters or invents a column. *)
Theorem columns_hold_exponents (u : string) (v : list Z) :
  In (u, v) (columns (dimMatrix self)) ->
  In u listBaseUnits
  /\ v = map (fun d => lookupZ d (dict_get u (baseUnits self))) (index (dimMatrix self)).
Proof.
  intros Hin.
  destruct (getBaseUnits_ok ureg _ _ _ _ constructed) as (Hparse & Hdup & _ & Hbu & _).
  unfold check_duplicates in Hdup.
  apply drop_duplicate_units_incl in Hdup. destruct Hdup as [Hidx Hincl].
  apply Hincl in Hin. unfold build_dimMatrix in Hin, Hidx. cbn [snd columns index] in Hin, Hidx.
  rewrite map_map in Hin. cbn [fst snd] in Hin.
  apply in_map_iff in Hin. destruct Hin as (s & E & Hs). inversion E; subst u v.
  split; [exact Hs|].
  rewrite Hidx, (baseUnits_value s Hs). reflexivity.
Qed.

End Constructed.

Section ConstructedRecord.
Variable ureg : Registry.
Variable listBaseUnits : list string.
Variable digits : Z.
Variable self : UnitHandling.t.
Variable warned : list string.
Hypothesis constructed : getBaseUnits ureg listBaseUnits digits = Ok (self, warned).

(** X6: a constructed instance records at least one dependency vector, and no
    recorded vector consists of -1, 0 and 1 only; a system without a dependent
    unit is not constructed. *)
Theorem dependency_vectors_are_checked :
  dependentDims (dimAnalysis self) <> []
  /\ Forall (fun r => ~ purely_pos_neg_boolean r) (dependentDims (dimAnalysis self)).
Proof.
  destruct (getBaseUnits_ok ureg _ _ _ _ constructed) as (_ & _ & Han & _).
  apply analyse_ok in Han. destruct Han as (_ & Hne & Hex).
  split; [exact Hne|].
  apply Forall_forall. intros r Hin Hr.
  apply posNegBooleanRow_iff in Hr.
  assert (Ht : existsb posNegBooleanRow (dependentDims (dimAnalysis self)) = true).
  { apply existsb_exists. now exists r. }
  congruence.
Qed.

(** X17: every dependent unit of a constructed instance labels a column of
    [dimMatrix], so dropping the dependent units in [getUnitMultiplier] cannot
    fail on a missing label. *)
Theorem dependent_units_are_columns :
  forallb (fun d => inb d (column_labels (dimMatrix self)))
          (dependentUnits (dimAnalysis self)) = true.
Proof.
  destruct (getBaseUnits_ok ureg _ _ _ _ constructed) as (_ & _ & Han & _).
  apply analyse_ok in Han. destruct Han as (Hrec & _ & _).
  unfold dependency_record in Hrec.
  destruct (column_echelon_form (to_array (dimMatrix self))) as [[[M I_] pivot]|e];
    cbn [bind] in Hrec; [|discriminate].
  apply dependency_rows_units in Hrec.
  apply forallb_forall. intros d Hd. apply inb_In.
  rewrite Forall_forall in Hrec. now apply Hrec.
Qed.

End ConstructedRecord.

Lemma declared_symbols_have_multiplier_one_witness :
  (dict_mem "GWh" (baseUnits (energy_engine 6)) = true <-> In "GWh" energy_system)
  /\ (In "GWh" energy_system ->
      getUnitMultiplier Vocabulary.ureg (energy_engine 6) (Str "GWh") = Ok 1%Q).
Proof.
  apply (declared_symbols_have_multiplier_one Vocabulary.ureg energy_system 6
           (energy_engine 6) []).
  vm_compute. reflexivity.
Defined.

Lemma baseUnits_hold_dimensionalities_witness :
  exists q, parse Vocabulary.ureg "GWh" = Some q
            /\ dict_get "GWh" (baseUnits (energy_engine 6))
               = get_dimensionality Vocabulary.ureg q.
Proof.
  apply (baseUnits_hold_dimensionalities Vocabulary.ureg energy_system 6
           (energy_engine 6) []).
  - vm_compute. reflexivity.
  - cbn. tauto.
Defined.

Lemma columns_hold_exponents_witness :
  In "GWh" energy_system
  /\ [1; 2; -2; 0]
     = map (fun d => lookupZ d (dict_get "GWh" (baseUnits (energy_engine 6))))
           (index (dimMatrix (energy_engine 6))).
Proof.
  apply (columns_hold_exponents Vocabulary.ureg energy_system 6
           (energy_engine 6) []).
  - vm_compute. reflexivity.
  - vm_compute. tauto.
Defined.

Lemma dependency_vectors_are_checked_witness :
  dependentDims (dimAnalysis (energy_engine 6)) <> []
  /\ Forall (fun r => ~ purely_pos_neg_boolean r) (dependentDims (dimAnalysis (energy_engine 6))).
Proof.
  apply (dependency_vectors_are_checked Vocabulary.ureg energy_system 6
           (energy_engine 6) []).
  vm_compute. reflexivity.
Defined.

Lemma dependent_units_are_columns_witness :
  forallb (fun d => inb d (column_labels (dimMatrix (energy_engine 6))))
          (dependentUnits (dimAnalysis (energy_engine 6))) = true.
Proof.
  apply (dependent_units_are_columns Vocabulary.ureg energy_system 6
           (energy_engine 6) []).
  vm_compute. reflexivity.
Defined.

(** ** A symbol declared three times *)

Lemma same_members_app (s1 s2 t : list (list Z)) :
  same_members s1 s2 -> same_members (s1 ++ t) (s2 ++ t).
Proof. intros H w. rewrite !existsb_app. now rewrite (H w). Qed.

Lemma same_members_trans (s1 s2 s3 : list (list Z)) :
  same_members s1 s2 -> same_members s2 s3 -> same_members s1 s3.
Proof. intros H1 H2 w. now rewrite (H1 w). Qed.

(** X9: the loop over the duplicated columns meets a symbol once for each of
    its repeated columns.  A symbol declared three times (no other column
    repeated) is collapsed at its first turn and then, being single, raises the
    duplicate-dimension error at its second turn: only a symbol declared
    exactly twice is accepted with a warning. *)
Theorem symbol_declared_three_times (bu : list (string * UnitsContainer))
  (idx : list string) (pre m1 m2 post : list (string * list Z)) (s : string) (v : list Z) :
  ~ In s (map fst (pre ++ m1 ++ m2 ++ post)) ->
  forallb (fun m => negb (snd m))
          (duplicated (mkDataFrame idx (pre ++ (s, v) :: m1 ++ m2 ++ post))) = true ->
  check_duplicates bu
    (mkDataFrame idx (pre ++ (s, v) :: m1 ++ (s, v) :: m2 ++ (s, v) :: post))
  = Raise (DuplicateDimensionError (dict_get s bu) s).
Proof.
  intros Hs Hnone.
  rewrite !map_app, !in_app_iff in Hs.
  destruct (filter_label_absent s pre ltac:(tauto)) as [Epre1 Epre2].
  destruct (filter_label_absent s m1 ltac:(tauto)) as [Em11 Em12].
  destruct (filter_label_absent s m2 ltac:(tauto)) as [Em21 Em22].
  destruct (filter_label_absent s post ltac:(tauto)) as [Epost1 Epost2].
  assert (Hinb : inb s [s] = true) by (unfold inb; cbn; now rewrite String.eqb_refl).
  unfold check_duplicates, duplicated in *. cbn [columns] in *.
  set (A := pre ++ (s, v) :: m1).
  assert (EA0 : pre ++ (s, v) :: m1 ++ m2 ++ post = A ++ m2 ++ post)
    by (unfold A; now rewrite <- app_assoc).
  assert (EA : pre ++ (s, v) :: m1 ++ (s, v) :: m2 ++ (s, v) :: post
               = A ++ (s, v) :: m2 ++ (s, v) :: post)
    by (unfold A; now rewrite <- app_assoc).
  rewrite EA0 in Hnone. rewrite !duplicated_from_app, !forallb_app in Hnone.
  cbn [app] in Hnone.
  apply andb_prop in Hnone. destruct Hnone as [HA Hrest].
  apply andb_prop in Hrest. destruct Hrest as [Hm2 Hpost].
  assert (HvA : In v (map snd A)).
  { unfold A. rewrite map_app. apply in_or_app. right. now left. }
  assert (Hmark : forall t, existsb (eq_col v) (map snd A ++ t) = true).
  { intros t. apply existsb_exists. exists v. split; [|apply eq_col_refl].
    apply in_or_app. now left. }
  assert (S1 : same_members (map snd A) (map snd A ++ [v]))
    by (apply same_members_repeat; exact HvA).
  assert (S2 : same_members (map snd A ++ map snd m2)
                            (((map snd A ++ [v]) ++ map snd m2) ++ [v])).
  { apply same_members_trans with ((map snd A ++ [v]) ++ map snd m2).
    - now apply same_members_app.
    - apply same_members_repeat. apply in_or_app. left. apply in_or_app. now left. }
  assert (Edups : map fst (filter snd (duplicated_from []
                                         (A ++ (s, v) :: m2 ++ (s, v) :: post))) = [s; s]).
  { rewrite duplicated_from_app. cbn [app duplicated_from].
    rewrite duplicated_from_app. cbn [duplicated_from].
    rewrite !filter_app. cbn [filter snd]. rewrite !filter_app. cbn [filter snd].
    rewrite (filter_unmarked _ HA).
    replace (existsb (eq_col v) (map snd A)) with true
      by (symmetry; rewrite <- (app_nil_r (map snd A)); apply Hmark).
    rewrite <- app_assoc. rewrite (Hmark ([v] ++ map snd m2)).
    rewrite <- (duplicated_from_same_members m2 _ _ S1).
    rewrite (filter_unmarked _ Hm2).
    rewrite app_assoc.
    rewrite <- (duplicated_from_same_members post _ _ S2).
    rewrite (filter_unmarked _ Hpost). reflexivity. }
  rewrite EA in *. rewrite Edups. rewrite <- EA.
  cbn [drop_duplicate_units columns index drop_columns].
  rewrite !filter_app. cbn [filter fst]. rewrite !filter_app. cbn [filter fst].
  rewrite !filter_app. cbn [filter fst].
  rewrite String.eqb_refl, Hinb. cbn [negb].
  rewrite Epre1, Em11, Em21, Epost1, Epre2, Em12, Em22, Epost2.
  cbn [app drop_duplicates_from existsb snd].
  rewrite eq_col_refl. cbn [orb drop_duplicates_from app existsb].
  rewrite ?eq_col_refl. cbn [orb drop_duplicates_from].
  rewrite !filter_app. cbn [filter fst]. rewrite String.eqb_refl.
  rewrite Epre1, Em11, Em21, Epost1. reflexivity.
Qed.

Lemma symbol_declared_three_times_witness :
  check_duplicates [("km", [("[length]", 1)]); ("hour", [("[time]", 1)])]
    (mkDataFrame ["[length]"; "[time]"]
       [("km", [1; 0]); ("km", [1; 0]); ("hour", [0; 1]); ("km", [1; 0])])
  = Raise (DuplicateDimensionError
             (dict_get "km" [("km", [("[length]", 1)]); ("hour", [("[time]", 1)])]) "km").
Proof.
  apply (symbol_declared_three_times _ ["[length]"; "[time]"]
           [] [] [("hour", [0; 1])] [] "km" [1; 0]).
  - cbn. intros [H|H]; [discriminate|exact H].
  - vm_compute. reflexivity.
Defined.

(** ** The columns that remain after the duplicate check *)

Lemma eq_col_eq (a b : list Z) : eq_col a b = true -> a = b.
Proof.
  unfold eq_col. revert b. induction a as [|x a IH]; intros [|y b] H; cbn in H;
    try discriminate; [reflexivity|].
  apply andb_prop in H. destruct H as [Hl H]. apply andb_prop in H. destruct H as [Hxy H].
  apply Z.eqb_eq in Hxy. subst y. f_equal. apply IH.
  cbn in Hl. now rewrite Hl.
Qed.

Lemma existsb_eq_col (v : list Z) (seen : list (list Z)) :
  existsb (eq_col v) seen = true <-> In v seen.
Proof.
  rewrite existsb_exists. split.
  - intros (x & Hin & E). apply eq_col_eq in E. now subst.
  - intros H. exists v. split; [exact H|apply eq_col_refl].
Qed.

(** The columns kept by [drop_duplicates_from] have pairwise different vectors,
    none of them seen before, and every vector met is seen or kept. *)
Lemma drop_duplicates_from_NoDup (cs : list (string * list Z)) :
  forall seen,
  NoDup (map snd (drop_duplicates_from seen cs))
  /\ (forall v, In v (map snd (drop_duplicates_from seen cs)) -> ~ In v seen)
  /\ (forall c, In c cs ->
                In (snd c) seen \/ In (snd c) (map snd (drop_duplicates_from seen cs))).
Proof.
  induction cs as [|[l v] cs IH]; intros seen; cbn [drop_duplicates_from].
  - repeat split; [constructor|intros v []|intros c []].
  - destruct (existsb (eq_col v) seen) eqn:E.
    + destruct (IH seen) as (H1 & H2 & H3). repeat split; [exact H1|exact H2|].
      intros c [<-|Hc]; [left; now apply existsb_eq_col|now apply H3].
    + destruct (IH (seen ++ [v])) as (H1 & H2 & H3).
      assert (Hv : ~ In v seen).
      { intro Hin. apply existsb_eq_col in Hin. congruence. }
      cbn [map snd]. repeat split.
      * constructor; [|exact H1]. intro Hin. apply (H2 v Hin).
        apply in_or_app. right. now left.
      * intros w [<-|Hw]; [exact Hv|]. intro Hin. apply (H2 w Hw).
        apply in_or_app. now left.
      * intros c [<-|Hc]; [right; now left|].
        destruct (H3 c Hc) as [Hs|Hk]; [|right; now right].
        apply in_app_or in Hs. destruct Hs as [Hs|[Hs|[]]]; [now left|].
        right. left. exact Hs.
Qed.

(** Marked and kept columns share out the frame. *)
Lemma marked_plus_kept (cs : list (string * list Z)) :
  forall seen1 seen2,
  same_members seen1 seen2 ->
  (length (filter snd (duplicated_from seen2 cs))
   + length (drop_duplicates_from seen1 cs) = length cs)%nat.
Proof.
  induction cs as [|[l v] cs IH]; intros seen1 seen2 Hs;
    cbn [duplicated_from drop_duplicates_from filter snd]; [reflexivity|].
  rewrite <- (Hs v). destruct (existsb (eq_col v) seen1) eqn:E.
  - cbn [length]. rewrite <- (IH seen1 (seen2 ++ [v])); [lia|].
    apply same_members_trans with seen2; [exact Hs|].
    apply same_members_repeat. apply existsb_eq_col. now rewrite <- (Hs v).
  - cbn [length]. rewrite <- (IH (seen1 ++ [v]) (seen2 ++ [v])); [lia|].
    now apply same_members_app.
Qed.

Lemma filter_partition_length {A : Type} (f : A -> bool) (l : list A) :
  (length (filter f l) + length (filter (fun x => negb (f x)) l) = length l)%nat.
Proof.
  induction l as [|a l IH]; cbn; [reflexivity|].
  destruct (f a); cbn; lia.
Qed.

Lemma nodup_length_NoDup {A : Type} (dec : forall x y : A, {x = y} + {x <> y}) (l : list A) :
  (length l <= length (nodup dec l))%nat -> NoDup l.
Proof.
  induction l as [|a l IH]; cbn; [constructor|].
  pose proof (NoDup_incl_length (NoDup_nodup dec l) (fun x Hx => proj1 (nodup_In dec l x) Hx))
    as Hle.
  destruct (in_dec dec a l) as [Hin|Hnot]; cbn; intros H.
  - lia.
  - constructor; [exact Hnot|]. apply IH. lia.
Qed.

Lemma drop_duplicate_units_measure (bu : list (string * UnitsContainer))
  (dups : list string) :
  forall (df df' : DataFrame) (w w' : list string),
  drop_duplicate_units dups bu df w = Ok (df', w') ->
  (length (columns df') + length dups <= length (columns df))%nat
  /\ (forall v, In v (map snd (columns df)) -> In v (map snd (columns df')))
  /\ (forall u, In u (map fst (columns df)) -> In u (map fst (columns df')))
  /\ w' = w ++ dups.
Proof.
  induction dups as [|d rest IH]; intros df df' w w' H; cbn [drop_duplicate_units] in H.
  - inversion H; subst. cbn. rewrite app_nil_r. repeat split; auto. lia.
  - destruct (filter (fun c => String.eqb (fst c) d) (columns df))
      as [|c1 [|c2 sel]] eqn:Hsel; try discriminate.
    destruct (drop_duplicates_from [] (c1 :: c2 :: sel)) as [|c [|c' cs]] eqn:Hdd;
      try discriminate.
    apply IH in H. cbn [columns drop_columns] in H.
    destruct H as (Hlen & Hvec & Hlab & Hw).
    assert (Hfilter : filter (fun c0 => negb (inb (fst c0) [d])) (columns df)
                      = filter (fun c0 => negb (String.eqb (fst c0) d)) (columns df)).
    { apply filter_ext. intros a. unfold inb. cbn. now rewrite orb_false_r. }
    rewrite Hfilter in *.
    pose proof (filter_partition_length (fun c0 => String.eqb (fst c0) d) (columns df)) as Hp.
    rewrite Hsel in Hp. cbn [length] in Hp.
    assert (Hsame : forall x, In x (columns df) -> fst x = d -> snd x = snd c).
    { intros x Hx Ex.
      assert (Hin : In x (c1 :: c2 :: sel)).
      { rewrite <- Hsel. apply filter_In. split; [exact Hx|]. now apply String.eqb_eq. }
      destruct (drop_duplicates_from_NoDup (c1 :: c2 :: sel) []) as (_ & _ & H3).
      destruct (H3 x Hin) as [[]|Hk]. rewrite Hdd in Hk. cbn in Hk.
      destruct Hk as [Hk|[]]. now symmetry. }
    assert (Hkeep : forall x, In x (columns df) ->
                      In (if String.eqb (fst x) d then (d, snd c) else x)
                         (filter (fun c0 => negb (String.eqb (fst c0) d)) (columns df)
                            ++ [(d, snd c)])).
    { intros x Hx. apply in_or_app. destruct (String.eqb (fst x) d) eqn:E.
      - right. now left.
      - left. apply filter_In. split; [exact Hx|]. now rewrite E. }
    repeat split.
    + rewrite length_app in Hlen. cbn [length] in *. lia.
    + intros v Hv. apply Hvec. apply in_map_iff in Hv. destruct Hv as (x & <- & Hx).
      specialize (Hkeep x Hx). apply in_map_iff.
      destruct (String.eqb (fst x) d) eqn:E.
      * exists (d, snd c). split; [|exact Hkeep]. cbn. symmetry.
        apply Hsame; [exact Hx|]. now apply String.eqb_eq.
      * exists x. split; [reflexivity|exact Hkeep].
    + intros u Hu. apply Hlab. apply in_map_iff in Hu. destruct Hu as (x & <- & Hx).
      specialize (Hkeep x Hx). apply in_map_iff.
      destruct (String.eqb (fst x) d) eqn:E.
      * exists (d, snd c). split; [|exact Hkeep]. cbn. symmetry. now apply String.eqb_eq.
      * exists x. split; [reflexivity|exact Hkeep].
    + rewrite Hw. rewrite <- app_assoc. reflexivity.
Qed.

Lemma check_duplicates_ok (bu : list (string * UnitsContainer))
  (df df' : DataFrame) (warned : list string) :
  check_duplicates bu df = Ok (df', warned) ->
  NoDup (map snd (columns df'))
  /\ (forall v, In v (map snd (columns df)) <-> In v (map snd (columns df')))
  /\ (forall u, In u (column_labels df) <-> In u (column_labels df'))
  /\ warned = map fst (filter snd (duplicated df)).
Proof.
  unfold check_duplicates. intros H.
  pose proof (drop_duplicate_units_incl _ _ _ _ _ _ H) as [_ Hincl].
  apply drop_duplicate_units_measure in H. destruct H as (Hlen & Hvec & Hlab & Hw).
  rewrite length_map in Hlen.
  pose proof (marked_plus_kept (columns df) [] [] (fun w => eq_refl)) as Hmk.
  fold (duplicated df) in Hmk.
  destruct (drop_duplicates_from_NoDup (columns df) []) as (Hnd & _ & _).
  split; [|split; [|split]].
  - apply (nodup_length_NoDup (list_eq_dec Z.eq_dec)).
    assert (Hsub : incl (map snd (drop_duplicates_from [] (columns df)))
                        (nodup (list_eq_dec Z.eq_dec) (map snd (columns df')))).
    { intros v Hv. apply nodup_In. apply Hvec.
      apply in_map_iff in Hv. destruct Hv as (x & <- & Hx).
      apply in_map. now apply drop_duplicates_from_incl with []. }
    pose proof (NoDup_incl_length Hnd Hsub) as Hle.
    rewrite !length_map in *. lia.
  - intros v. split; [apply Hvec|]. intros Hv.
    apply in_map_iff in Hv. destruct Hv as (x & <- & Hx). apply in_map. now apply Hincl.
  - intros u. unfold column_labels. split; [apply Hlab|]. intros Hu.
    apply in_map_iff in Hu. destruct Hu as (x & <- & Hx). apply in_map. now apply Hincl.
  - exact Hw.
Qed.

(** X11: when the duplicate check lets a frame pass, the columns that remain
    have pairwise different vectors, every vector and every label of the
    declared frame is still present, and a warning was logged for every marked
    column.  The invariant that no two columns are identical holds after
    construction. *)
Theorem remaining_columns_are_distinct (bu : list (string * UnitsContainer))
  (df df' : DataFrame) (warned : list string) :
  check_duplicates bu df = Ok (df', warned) ->
  NoDup (map snd (columns df'))
  /\ (forall v, In v (map snd (columns df)) <-> In v (map snd (columns df')))
  /\ (forall u, In u (column_labels df) <-> In u (column_labels df'))
  /\ warned = map fst (filter snd (duplicated df)).
Proof. apply check_duplicates_ok. Qed.

Lemma remaining_columns_are_distinct_witness :
  let df' := mkDataFrame ["[length]"; "[time]"] [("hour", [0; 1]); ("km", [1; 0])] in
  NoDup (map snd (columns df'))
  /\ (forall v, In v (map snd [("km", [1; 0]); ("km", [1; 0]); ("hour", [0; 1])])
                <-> In v (map snd (columns df')))
  /\ (forall u, In u (column_labels (mkDataFrame ["[length]"; "[time]"]
                                       [("km", [1; 0]); ("km", [1; 0]); ("hour", [0; 1])]))
                <-> In u (column_labels df'))
  /\ ["km"] = map fst (filter snd (duplicated (mkDataFrame ["[length]"; "[time]"]
                                        [("km", [1; 0]); ("km", [1; 0]); ("hour", [0; 1])]))).
Proof.
  apply (remaining_columns_are_distinct []
           (mkDataFrame ["[length]"; "[time]"]
              [("km", [1; 0]); ("km", [1; 0]); ("hour", [0; 1])])).
  vm_compute. reflexivity.
Defined.

Lemma dict_keys_In (k : string) (d : list (string * UnitsContainer)) :
  In k (map fst d) <-> dict_mem k d = true.
Proof. unfold dict_mem. symmetry. apply inb_In. Qed.

Lemma dict_set_keys_NoDup (k : string) (v : UnitsContainer)
  (d : list (string * UnitsContainer)) :
  NoDup (map fst d) -> NoDup (map fst (dict_set k v d)).
Proof.
  induction d as [|[k0 v0] d IH]; cbn; intros H.
  - constructor; [intros []|constructor].
  - inversion H as [|? ? Hnot Hnd]; subst.
    destruct (String.eqb k k0) eqn:E; cbn.
    + constructor; assumption.
    + constructor; [|now apply IH].
      rewrite dict_keys_In, dict_mem_set. intro Hm.
      apply orb_prop in Hm. destruct Hm as [Hm|Hm].
      * apply String.eqb_eq in Hm. subst k0. rewrite String.eqb_refl in E. discriminate.
      * apply dict_keys_In in Hm. contradiction.
Qed.

Lemma baseUnits_keys_NoDup (dims acc : list (string * UnitsContainer)) :
  NoDup (map fst acc) ->
  NoDup (map fst (fold_left (fun d sv => dict_set (fst sv) (snd sv) d) dims acc)).
Proof.
  revert acc. induction dims as [|sv dims IH]; intros acc H; cbn; [exact H|].
  apply IH. now apply dict_set_keys_NoDup.
Qed.

Section ConstructedColumns.
Variable ureg : Registry.
Variable listBaseUnits : list string.
Variable digits : Z.
Variable self : UnitHandling.t.
Variable warned : list string.
Hypothesis constructed : getBaseUnits ureg listBaseUnits digits = Ok (self, warned).

(** X12: a constructed instance has exactly one column for each declared
    symbol: the labels of [dimMatrix] are pairwise different, they are the
    declared symbols, and there are as many columns as keys of [baseUnits]
    (the count the dependency analysis takes its indices from). *)
Theorem one_column_per_symbol :
  NoDup (column_labels (dimMatrix self))
  /\ (forall s, In s listBaseUnits <-> In s (column_labels (dimMatrix self)))
  /\ length (baseUnits self) = length (columns (dimMatrix self)).
Proof.
  destruct (getBaseUnits_ok ureg _ _ _ _ constructed) as (_ & Hdup & _ & Hbu & _).
  pose proof (drop_duplicate_units_incl _ _ _ _ _ _ Hdup) as [Hidx Hincl].
  apply check_duplicates_ok in Hdup. destruct Hdup as (Hnd & _ & Hlab & _).
  set (dims := map (fun s => (s, dimensionality_of ureg s)) listBaseUnits) in *.
  set (g := fun s => dim_column (index (dimMatrix self)) (dimensionality_of ureg s)).
  assert (Hlabels0 : column_labels (snd (build_dimMatrix dims)) = listBaseUnits).
  { unfold build_dimMatrix, column_labels. cbn [snd columns]. unfold dims.
    rewrite !map_map. cbn [fst]. apply map_id. }
  assert (Hcols : forall c, In c (columns (dimMatrix self)) -> snd c = g (fst c)).
  { intros c Hc. apply Hincl in Hc. unfold build_dimMatrix in Hc, Hidx.
    cbn [snd columns index] in Hc, Hidx. unfold dims in Hc. rewrite map_map in Hc.
    apply in_map_iff in Hc. destruct Hc as (s & <- & _). cbn [fst snd].
    unfold g. rewrite Hidx. reflexivity. }
  assert (Hlnd : NoDup (column_labels (dimMatrix self))).
  { unfold column_labels. apply (NoDup_map_inv g).
    rewrite map_map. rewrite (map_ext_in _ snd); [exact Hnd|].
    intros c Hc. symmetry. now apply Hcols. }
  assert (Hsame : forall s, In s listBaseUnits <-> In s (column_labels (dimMatrix self))).
  { intros s. rewrite <- Hlabels0. apply Hlab. }
  split; [exact Hlnd|]. split; [exact Hsame|].
  assert (Hknd : NoDup (map fst (baseUnits self))).
  { rewrite Hbu. unfold build_dimMatrix. cbn [fst]. apply baseUnits_keys_NoDup. constructor. }
  assert (Hkeys : forall s, In s (map fst (baseUnits self)) <-> In s listBaseUnits).
  { intros s. rewrite dict_keys_In, Hbu. unfold build_dimMatrix. cbn [fst]. unfold dims.
    destruct (baseUnits_fold ureg listBaseUnits [] s) as [Hm _]. cbv zeta in Hm.
    rewrite Hm, orb_false_r. apply inb_In. }
  rewrite <- (length_map fst (baseUnits self)).
  rewrite <- (length_map fst (columns (dimMatrix self))).
  apply Nat.le_antisymm; apply NoDup_incl_length; try assumption.
  - intros s Hs. apply Hsame. now apply Hkeys.
  - intros s Hs. apply Hkeys. now apply Hsame.
Qed.

End ConstructedColumns.

Lemma one_column_per_symbol_witness :
  NoDup (column_labels (dimMatrix (energy_engine 6)))
  /\ (forall s, In s energy_system <-> In s (column_labels (dimMatrix (energy_engine 6))))
  /\ length (baseUnits (energy_engine 6)) = length (columns (dimMatrix (energy_engine 6))).
Proof.
  apply (one_column_per_symbol Vocabulary.ureg energy_system 6 (energy_engine 6) []).
  vm_compute. reflexivity.
Defined.

(** ** More on the final checks and on the matches *)

Section MoreChecks.
Variable ureg : Registry.
Variable self : UnitHandling.t.

(** X13: the check that the combined unit is unitless comes before the
    tolerance check: a combined unit that keeps a root unit fails with the
    internal-consistency error whatever its magnitude.  (A unit without a
    dimension that is its own root unit, like the radian, ends here.) *)
Theorem combined_unit_must_be_unitless (s : string) (q : Quantity) :
  dict_mem s (baseUnits self) = false ->
  resolve ureg self s = Ok (CQuantity q) ->
  unitless (to_base_units ureg q) = false ->
  getUnitMultiplier ureg self (Str s) = Raise InternalConsistencyError.
Proof.
  intros Hb Hr Hu. unfold getUnitMultiplier. rewrite Hb, Hr. cbn [bind finalise].
  rewrite Hu. reflexivity.
Qed.

(** X15: the tolerance is inclusive: a magnitude equal to [10^(-digits)] is
    accepted, and the multiplier returned is that same number. *)
Theorem magnitude_at_tolerance_is_accepted (s : string) (q : Quantity) :
  dict_mem s (baseUnits self) = false ->
  resolve ureg self s = Ok (CQuantity q) ->
  unitless (to_base_units ureg q) = true ->
  (magnitude (to_base_units ureg q) == tolerance (roundingDecimalPoints self))%Q ->
  exists r, getUnitMultiplier ureg self (Str s) = Ok r
            /\ (r == tolerance (roundingDecimalPoints self))%Q.
Proof.
  intros Hb Hr Hu Hm.
  exists (py_round (magnitude (to_base_units ureg q)) (roundingDecimalPoints self)).
  split.
  - apply multiplier_after_resolve; try assumption. rewrite Hm. apply Qle_refl.
  - pose proof (pow10_pos (roundingDecimalPoints self)) as Hp.
    assert (Hne : ~ ((10 # 1) ^ roundingDecimalPoints self == 0)%Q)
      by (intro E; rewrite E in Hp; discriminate).
    unfold py_round.
    rewrite (round_half_even_comp _ 1).
    + rewrite tolerance_inv. change (inject_Z (round_half_even 1)) with 1%Q.
      field. exact Hne.
    + rewrite Hm, tolerance_inv. field. exact Hne.
Qed.

(** X16: when a base unit's column, or its negation, equals the vector of the
    input, the dependency record is not consulted: the result is the same with
    any other record in its place. *)
Theorem match_ignores_dependency_record (s : string) (q : Quantity) (da : DimAnalysis) :
  parse ureg s = Some q ->
  matching_columns 1 (dimMatrix self) (dimVector_of ureg self q) <> []
  \/ matching_columns (-1) (dimMatrix self) (dimVector_of ureg self q) <> [] ->
  getUnitMultiplier ureg (with_dimAnalysis self da) (Str s)
  = getUnitMultiplier ureg self (Str s).
Proof.
  intros Hp Hm. unfold getUnitMultiplier, with_dimAnalysis. cbn [baseUnits roundingDecimalPoints].
  destruct (dict_mem s (baseUnits self)); [reflexivity|].
  f_equal. unfold resolve. cbn [dimMatrix].
  destruct (checkIfInvalidHourString ureg s); cbn [bind]; [|reflexivity].
  unfold ureg_call. rewrite Hp. cbn [bind].
  destruct (assert _ _); cbn [bind]; [|reflexivity].
  unfold combine_units, ureg_call. rewrite Hp. cbn [bind dimMatrix].
  fold (dimVector_of ureg self q).
  destruct (matching_columns 1 (dimMatrix self) (dimVector_of ureg self q)) as [|b bs];
    [|reflexivity].
  destruct (matching_columns (-1) (dimMatrix self) (dimVector_of ureg self q)) as [|b bs];
    [|reflexivity].
  destruct Hm as [Hm|Hm]; contradiction.
Qed.

(** X18: the conversion factor of a match.  On a direct match the combined
    unit's magnitude in root units is the external magnitude of the input's
    unit divided by that of the matching base unit; on an inverse match it is
    their product. *)
Theorem magnitude_of_a_match (s b : string) (q qb : Quantity) (others : list string) :
  passes_guards ureg self s q ->
  parse ureg b = Some qb ->
  let inputUnit := mkQuantity 1 (units q) in
  (matching_columns 1 (dimMatrix self) (dimVector_of ureg self q) = b :: others ->
   exists c, resolve ureg self s = Ok (CQuantity c)
             /\ (external_magnitude ureg c
                 == external_magnitude ureg inputUnit / external_magnitude ureg qb)%Q)
  /\ (matching_columns 1 (dimMatrix self) (dimVector_of ureg self q) = [] ->
      matching_columns (-1) (dimMatrix self) (dimVector_of ureg self q) = b :: others ->
      exists c, resolve ureg self s = Ok (CQuantity c)
                /\ (external_magnitude ureg c
                    == external_magnitude ureg inputUnit * external_magnitude ureg qb)%Q).
Proof.
  intros Hg Hb inputUnit.
  pose proof (resolve_after_guards ureg self s q Hg) as Hres.
  destruct Hg as (_ & Hp & _ & _).
  unfold combine_units, ureg_call in Hres. rewrite Hp in Hres. cbn [bind] in Hres.
  split.
  - intros Hm. rewrite Hm, Hb in Hres. cbn [bind cmul as_quantity] in Hres.
    eexists. split; [exact Hres|].
    rewrite external_magnitude_mul, external_magnitude_pow.
    change (external_magnitude ureg qb ^ (-1))%Q with (/ external_magnitude ureg qb)%Q.
    reflexivity.
  - intros Hm1 Hm2. rewrite Hm1, Hm2, Hb in Hres. cbn [bind cmul as_quantity] in Hres.
    eexists. split; [exact Hres|]. apply external_magnitude_mul.
Qed.

End MoreChecks.

Lemma combined_unit_must_be_unitless_witness :
  getUnitMultiplier angle_ureg (energy_engine 6) (Str "rad") = Raise InternalConsistencyError.
Proof.
  eapply (combined_unit_must_be_unitless angle_ureg (energy_engine 6) "rad").
  - vm_compute. reflexivity.
  - vm_compute. reflexivity.
  - vm_compute. reflexivity.
Defined.

Lemma magnitude_at_tolerance_is_accepted_witness :
  exists r, getUnitMultiplier Vocabulary.ureg (energy_engine 3) (Str "kg") = Ok r
            /\ (r == tolerance 3)%Q.
Proof.
  eapply (magnitude_at_tolerance_is_accepted Vocabulary.ureg (energy_engine 3) "kg").
  - vm_compute. reflexivity.
  - vm_compute. reflexivity.
  - vm_compute. reflexivity.
  - vm_compute. reflexivity.
Defined.

Lemma match_ignores_dependency_record_witness :
  getUnitMultiplier Vocabulary.ureg
    (with_dimAnalysis (energy_engine 6) (mkDimAnalysis [] [])) (Str "kg")
  = getUnitMultiplier Vocabulary.ureg (energy_engine 6) (Str "kg").
Proof.
  apply (match_ignores_dependency_record Vocabulary.ureg (energy_engine 6) "kg"
           (mkQuantity 1 [("kilogram", 1)])).
  - vm_compute. reflexivity.
  - left. vm_compute. discriminate.
Defined.

Lemma magnitude_of_a_match_witness :
  let kg := mkQuantity 1 [("kilogram", 1)] in
  let ton := mkQuantity 1 [("ton", 1)] in
  exists c, resolve Vocabulary.ureg (energy_engine 6) "kg" = Ok (CQuantity c)
            /\ (external_magnitude Vocabulary.ureg c
                == external_magnitude Vocabulary.ureg kg
                   / external_magnitude Vocabulary.ureg ton)%Q.
Proof.
  cbv zeta.
  apply (proj1 (magnitude_of_a_match Vocabulary.ureg (energy_engine 6) "kg" "ton"
                  (mkQuantity 1 [("kilogram", 1)]) (mkQuantity 1 [("ton", 1)]) []
                  ltac:(repeat split; vm_compute; reflexivity) eq_refl)).
  vm_compute. reflexivity.
Defined.

(** ** Unknown symbols *)

(** X14: if the registry cannot parse one of the declared symbols,
    construction fails with the undefined-unit error, whatever else is
    declared: every symbol is parsed before duplicates are looked for. *)
Theorem unknown_symbol_stops_construction (ureg : Registry) (listBaseUnits : list string)
  (digits : Z) (s : string) :
  In s listBaseUnits ->
  parse ureg s = None ->
  getBaseUnits ureg listBaseUnits digits = Raise UndefinedUnitError.
Proof.
  intros Hin Hp. unfold getBaseUnits.
  assert (Hd : dimensionalities ureg listBaseUnits = Raise UndefinedUnitError).
  { induction listBaseUnits as [|u l IH]; [contradiction|]. cbn.
    destruct (parse ureg u) as [q|] eqn:Hu; [|reflexivity].
    destruct Hin as [->|Hin]; [congruence|]. now rewrite (IH Hin). }
  now rewrite Hd.
Qed.

Lemma unknown_symbol_stops_construction_witness :
  getBaseUnits Vocabulary.ureg ["km"; "km"; "furlong"] 6 = Raise UndefinedUnitError.
Proof.
  apply (unknown_symbol_stops_construction Vocabulary.ureg _ 6 "furlong").
  - cbn. tauto.
  - vm_compute. reflexivity.
Defined.
